(** * Agentic RAG back-end: orchestration layer

    A shallow embedding of the Python back-end
    (services/agent_service.py, services/faiss_service.py, tools/*.py,
    api/models.py, api/dependencies.py, api/routes.py, api/middleware.py)
    and the properties of its tool functions, service initialisation,
    conversation conversion, streaming adapter and health aggregation.

    Python code that mutates module-level singletons and raises exceptions
    is embedded in a state-and-exception monad in which, as in Python, the
    state changes made before an exception is raised are kept.  External
    collaborators (the LLM client, LangGraph's executor, SQLAlchemy, the
    vector store, the clock) are fields of a [World] record: every theorem
    quantifies over all of their behaviours.  The reasoning loop, which the
    repository leaves to LangGraph, is the one part that follows the
    specification instead of the sources (module [Dispatcher]); it runs the
    tool functions embedded from tools/*.py. *)

From stdpp Require Import base strings list gmap pretty.
From Stdlib Require Import ZArith.
From Equations Require Import Equations.

Local Open Scope Z_scope.
Local Open Scope string_scope.

(** ** Exceptions *)

(** [Exception msg] stands for an instance of any subclass of Python's
    [Exception] whose [str()] is [msg]; [HTTPException] is FastAPI's, a
    subclass of [Exception] as well, so [except Exception] catches both. *)
Inductive exn : Type :=
| Exception (msg : string)
| HTTPException (status_code : Z) (detail : string).

(** [str(e)]; Starlette prints an HTTPException as "<status>: <detail>". *)
Definition str (e : exn) : string :=
  match e with
  | Exception msg => msg
  | HTTPException c d => pretty c ++ ": " ++ d
  end.

Inductive result (A : Type) : Type :=
| Returns (a : A)
| Raises (e : exn).
Arguments Returns {A} a.
Arguments Raises {A} e.

(** ** The state-and-exception monad *)

Module Py.
Section Monad.
Context {S : Type}.

Definition M (A : Type) : Type := S -> result A * S.

Definition ret {A} (a : A) : M A := fun s => (Returns a, s).

Definition raise {A} (e : exn) : M A := fun s => (Raises e, s).

Definition bind {A B} (m : M A) (k : A -> M B) : M B :=
  fun s =>
    match m s with
    | (Returns a, s') => k a s'
    | (Raises e, s') => (Raises e, s')
    end.

(** [try: body  except Exception as e: handler e] *)
Definition try_except {A} (body : M A) (handler : exn -> M A) : M A :=
  fun s =>
    match body s with
    | (Returns a, s') => (Returns a, s')
    | (Raises e, s') => handler e s'
    end.

Definition get : M S := fun s => (Returns s, s).

Definition gets {A} (f : S -> A) : M A := fun s => (Returns (f s), s).

Definition modify (f : S -> S) : M unit := fun s => (Returns tt, f s).

(** the outcome of a call into an external collaborator *)
Definition call {A} (r : result A) : M A := fun s => (r, s).
End Monad.
Arguments M : clear implicits.
End Py.

Notation "'let*' x ':=' c 'in' k" := (Py.bind c (fun x => k))
  (at level 10, x pattern, c at level 100, k at level 200).
Notation "c ';;;' k" := (Py.bind c (fun _ => k))
  (at level 100, k at level 200, right associativity).

(** ** Values *)

Definition nl : string := String (Ascii.ascii_of_nat 10) "".

(** LangChain messages, told apart in the routes by their class name. *)
Record ToolCall : Type := mkToolCall {
  tc_name : string;
  tc_args : string;
  tc_id : string
}.

Inductive Message : Type :=
| HumanMessage (content : string)
| AIMessage (content : string) (tool_calls : list ToolCall)
| SystemMessage (content : string)
| ToolMessage (content : string) (tool_call_id : string).

Definition class_name (m : Message) : string :=
  match m with
  | HumanMessage _ => "HumanMessage"
  | AIMessage _ _ => "AIMessage"
  | SystemMessage _ => "SystemMessage"
  | ToolMessage _ _ => "ToolMessage"
  end.

Definition msg_content (m : Message) : string :=
  match m with
  | HumanMessage c | AIMessage c _ | SystemMessage c | ToolMessage c _ => c
  end.

(** The values of a [Dict[str, Any]] that the routes build or forward. *)
Inductive Any : Type :=
| ANone
| AStr (s : string)
| AInt (z : Z)
| ABool (b : bool)
| AList (l : list string)
| AMessages (ms : list Message).

(** A registered tool as the registry sees it: name and description.  For a
    function decorated with [@tool] the description is its docstring, of
    which the first sentence is kept here. *)
Record Tool : Type := mkTool {
  tool_name : string;
  tool_description : string
}.

Record LLM : Type := mkLLM { llm_model : string }.

(** The object returned by [create_react_agent(llm, tools=tools)]. *)
Record Executor : Type := mkExecutor {
  ex_llm : LLM;
  ex_tools : list Tool
}.

(** What LangGraph's [astream] does when it is iterated: it hands out a
    chunk and goes on, or stops, or raises.  A run is finite: the graph
    stops, by raising, at its recursion limit. *)
Inductive Source : Type :=
| SDone
| SRaise (e : exn)
| SYield (chunk : gmap string Any) (rest : Source).

Inductive ActiveStatus : Type := ACTIVE | INACTIVE.

Definition ActiveStatus_value (s : ActiveStatus) : string :=
  match s with ACTIVE => "active" | INACTIVE => "inactive" end.

(** A row of the customers table; [credit] and [active_status] are
    nullable columns. *)
Record Customer : Type := mkCustomer {
  customer_id : Z;
  name : string;
  address : string;
  email : string;
  phone : string;
  credit : option Z;
  active_status : option ActiveStatus
}.

(** A [CustomerManager] bound to a database: the outcome of each of the
    queries the back-end uses. *)
Record CustomerManager : Type := mkCustomerManager {
  get_customer : Z -> result (option Customer);
  get_customer_by_email : string -> result (option Customer);
  search_customers : string -> result (list Customer);
  get_active_customers : result (list Customer);
  get_customer_count : result Z
}.

Record Chain : Type := mkChain {
  chain_invoke : string -> result string
}.

(** ** Settings and external collaborators *)

Record World : Type := mkWorld {
  (* config/settings.py *)
  agent_model_name : string;
  agent_system_message : option string;
  faiss_cache_enabled : bool;
  faiss_cache_path : string;
  faiss_urls_list : list string;
  faiss_tool_name : string;
  faiss_tool_description : string;
  crm_database_full_path : string;
  chinook_database_full_path : string;
  (* constructors and calls of the libraries *)
  ChatOpenAI_agent : result LLM;
  ArxivQueryRun : result unit;
  WikipediaQueryRun : result unit;
  create_react_agent : LLM -> list Tool -> result Executor;
  executor_invoke : Executor -> list Message -> result (gmap string (list Message));
  executor_astream : Executor -> list Message -> Source;
  WebBaseLoader_load : string -> result (list string);
  split_documents : list string -> result (list string);
  OpenAIEmbeddings : result unit;
  FAISS_from_documents : list string -> result (list string);
  FAISS_save_local : result unit;
  cache_path_exists : bool;
  FAISS_load_local : result (list string);
  create_retriever_tool : string -> string -> result Tool;
  CustomerManager_new : string -> result CustomerManager;
  SQLDatabase_from_uri : string -> result unit;
  ChatOpenAI_sql : result LLM;
  build_sql_chain : result Chain;
  DuckDuckGo_run : string -> result string;
  (* builtins whose text is not at stake here *)
  format_credit : Z -> string;
  py_strip : string -> string;
  (* the clock *)
  utcnow_isoformat : string;
  response_time_ms : Z
}.

(** ** Process-wide singletons *)

Record FAISSService : Type := mkFAISSService {
  vectorstore : option (list string);
  retriever : option unit;
  retriever_tool : option Tool;
  embeddings : option unit
}.

Record AgentService : Type := mkAgentService {
  llm : option LLM;
  tools : list Tool;
  agent_executor : option Executor;
  system_message : option string
}.

Record Globals : Type := mkGlobals {
  agent_service : AgentService;
  faiss_service : FAISSService;
  _customer_manager : option CustomerManager;
  _db : option unit;
  _llm : option LLM;
  _sql_chain : option Chain
}.

Definition with_agent (f : AgentService -> AgentService) (g : Globals) : Globals :=
  mkGlobals (f (agent_service g)) (faiss_service g) (_customer_manager g)
            (_db g) (_llm g) (_sql_chain g).

Definition with_faiss (f : FAISSService -> FAISSService) (g : Globals) : Globals :=
  mkGlobals (agent_service g) (f (faiss_service g)) (_customer_manager g)
            (_db g) (_llm g) (_sql_chain g).

Definition set_customer_manager (m : CustomerManager) (g : Globals) : Globals :=
  mkGlobals (agent_service g) (faiss_service g) (Some m) (_db g) (_llm g) (_sql_chain g).
Definition set_db (g : Globals) : Globals :=
  mkGlobals (agent_service g) (faiss_service g) (_customer_manager g)
            (Some tt) (_llm g) (_sql_chain g).
Definition set_sql_llm (l : LLM) (g : Globals) : Globals :=
  mkGlobals (agent_service g) (faiss_service g) (_customer_manager g)
            (_db g) (Some l) (_sql_chain g).
Definition set_sql_chain (c : Chain) (g : Globals) : Globals :=
  mkGlobals (agent_service g) (faiss_service g) (_customer_manager g)
            (_db g) (_llm g) (Some c).

Definition set_vectorstore v (s : FAISSService) : FAISSService :=
  mkFAISSService (Some v) (retriever s) (retriever_tool s) (embeddings s).
Definition set_retriever (s : FAISSService) : FAISSService :=
  mkFAISSService (vectorstore s) (Some tt) (retriever_tool s) (embeddings s).
Definition set_retriever_tool t (s : FAISSService) : FAISSService :=
  mkFAISSService (vectorstore s) (retriever s) (Some t) (embeddings s).
Definition set_embeddings (s : FAISSService) : FAISSService :=
  mkFAISSService (vectorstore s) (retriever s) (retriever_tool s) (Some tt).

Definition set_llm l (s : AgentService) : AgentService :=
  mkAgentService (Some l) (tools s) (agent_executor s) (system_message s).
Definition set_tools ts (s : AgentService) : AgentService :=
  mkAgentService (llm s) ts (agent_executor s) (system_message s).
Definition set_agent_executor ex (s : AgentService) : AgentService :=
  mkAgentService (llm s) (tools s) (Some ex) (system_message s).

(** The singletons as the module-level constructors leave them
    ([AgentService()], [FAISSService()], the [None] globals of the tools). *)
Definition fresh_globals (W : World) : Globals :=
  mkGlobals (mkAgentService None [] None (agent_system_message W))
            (mkFAISSService None None None None)
            None None None None.

Abbreviation Run := (Py.M Globals).

(** ** services/faiss_service.py *)

Module FAISS.
Section WithWorld.
Variable W : World.

(** the loop over the configured URLs: a URL that fails to load is
    skipped *)
Fixpoint load_all (urls : list string) (all_docs : list string) : list string :=
  match urls with
  | [] => all_docs
  | url :: rest =>
      match WebBaseLoader_load W url with
      | Returns docs => load_all rest (all_docs ++ docs)%list
      | Raises _ => load_all rest all_docs
      end
  end.

Definition initialize : Run bool :=
  let* vs := Py.gets (fun g => vectorstore (faiss_service g)) in
  match vs with
  | Some _ => Py.ret true
  | None =>
      Py.try_except
        (let urls := faiss_urls_list W in
         match urls with
         | [] => Py.ret false
         | _ =>
             let all_docs := load_all urls [] in
             match all_docs with
             | [] => Py.ret false
             | _ =>
                 let* documents := Py.call (split_documents W all_docs) in
                 let* _ := Py.call (OpenAIEmbeddings W) in
                 Py.modify (with_faiss set_embeddings) ;;;
                 let* v := Py.call (FAISS_from_documents W documents) in
                 Py.modify (with_faiss (set_vectorstore v)) ;;;
                 (if faiss_cache_enabled W
                  then Py.call (FAISS_save_local W)
                  else Py.ret tt) ;;;
                 Py.modify (with_faiss set_retriever) ;;;
                 let* t := Py.call (create_retriever_tool W (faiss_tool_name W)
                                      (faiss_tool_description W)) in
                 Py.modify (with_faiss (set_retriever_tool t)) ;;;
                 Py.ret true
             end
         end)
        (fun _ => Py.ret false)
  end.

Definition load_from_disk : Run bool :=
  let* vs := Py.gets (fun g => vectorstore (faiss_service g)) in
  match vs with
  | Some _ => Py.ret true
  | None =>
      Py.try_except
        (if negb (cache_path_exists W) then Py.ret false
         else
           let* _ := Py.call (OpenAIEmbeddings W) in
           Py.modify (with_faiss set_embeddings) ;;;
           let* v := Py.call (FAISS_load_local W) in
           Py.modify (with_faiss (set_vectorstore v)) ;;;
           Py.modify (with_faiss set_retriever) ;;;
           let* t := Py.call (create_retriever_tool W (faiss_tool_name W)
                                (faiss_tool_description W)) in
           Py.modify (with_faiss (set_retriever_tool t)) ;;;
           Py.ret true)
        (fun _ => Py.ret false)
  end.

Definition get_retriever_tool : Run (option Tool) :=
  let* rt := Py.gets (fun g => retriever_tool (faiss_service g)) in
  match rt with
  | None =>
      if faiss_cache_enabled W then
        let* success := load_from_disk in
        if negb success then initialize ;;; Py.ret tt else Py.ret tt
      else initialize ;;; Py.ret tt
  | Some _ => Py.ret tt
  end ;;;
  Py.gets (fun g => retriever_tool (faiss_service g)).

Definition is_ready : Run bool :=
  Py.gets (fun g => bool_decide (is_Some (retriever_tool (faiss_service g)))).

Definition get_info : Run (gmap string Any) :=
  let* ready := is_ready in
  let* s := Py.gets faiss_service in
  Py.ret (<["initialized" := ABool ready]>
         (<["vectorstore_type" := match vectorstore s with
                                   | Some _ => AStr "FAISS" | None => ANone end]>
         (<["tool_name" := match retriever_tool s with
                           | Some t => AStr (tool_name t) | None => ANone end]>
         (<["cache_enabled" := ABool (faiss_cache_enabled W)]>
         (<["cache_path" := if faiss_cache_enabled W
                            then AStr (faiss_cache_path W) else ANone]> ∅))))).
End WithWorld.
End FAISS.

(** ** tools/search_tools.py *)

Module SearchTools.
Section WithWorld.
Variable W : World.

Definition get_wikipedia_tool : Run Tool :=
  Py.try_except
    (let* _ := Py.call (WikipediaQueryRun W) in
     Py.ret (mkTool "WikipediaSearch"
       "Use this tool when you want to search for information on Wikipedia by Terms, Keywords or any Topics."))
    (fun e => Py.raise e).

Definition get_arxiv_tool : Run Tool :=
  Py.try_except
    (let* _ := Py.call (ArxivQueryRun W) in
     Py.ret (mkTool "ArxivSearch"
       "Use this tool to search for academic papers and research articles on ArXiv. Useful for scientific and technical topics."))
    (fun e => Py.raise e).

(** the body of the [@tool("DuckDuckGoSearch")] function *)
Definition duckduckgo_search (query_string : string) : Run string :=
  Py.try_except
    (Py.call (DuckDuckGo_run W query_string))
    (fun e => Py.ret ("Error performing search: " ++ str e)).

Definition get_duckduckgo_tool : Run Tool :=
  Py.ret (mkTool "DuckDuckGoSearch"
    "Search the internet using DuckDuckGo for any kinds of information.").

Definition get_all_search_tools : Run (list Tool) :=
  Py.try_except
    (let* a := get_arxiv_tool in
     let* d := get_duckduckgo_tool in
     let* w := get_wikipedia_tool in
     Py.ret [a; d; w])
    (fun e => Py.raise e).
End WithWorld.
End SearchTools.

(** ** tools/crm_tools.py *)

Module CrmTools.
Section WithWorld.
Variable W : World.

Definition get_customer_manager : Run CustomerManager :=
  let* cm := Py.gets _customer_manager in
  match cm with
  | None =>
      let db_uri := "sqlite:///" ++ crm_database_full_path W in
      let* m := Py.call (CustomerManager_new W db_uri) in
      Py.modify (set_customer_manager m) ;;;
      Py.ret m
  | Some m => Py.ret m
  end.

(** [{customer.credit:,.2f}]: formatting [None] raises a TypeError *)
Definition credit_text (c : Customer) : Run string :=
  match credit c with
  | Some x => Py.ret (format_credit W x)
  | None => Py.raise (Exception "unsupported format string passed to NoneType.__format__")
  end.

(** [{customer.active_status.value}] *)
Definition status_text (c : Customer) : Run string :=
  match active_status c with
  | Some s => Py.ret (ActiveStatus_value s)
  | None => Py.raise (Exception "'NoneType' object has no attribute 'value'")
  end.

Definition details (c : Customer) : Run string :=
  let* cr := credit_text c in
  let* st := status_text c in
  Py.ret ("Business Client ID: " ++ pretty (customer_id c) ++ nl ++
          "Name: " ++ name c ++ nl ++
          "Address: " ++ address c ++ nl ++
          "Email: " ++ email c ++ nl ++
          "Phone: " ++ phone c ++ nl ++
          "Credit: ₹" ++ cr ++ nl ++
          "Status: " ++ st).

Definition get_business_client_by_id_tool (client_id : Z) : Run string :=
  Py.try_except
    (let* manager := get_customer_manager in
     let* customer := Py.call (get_customer manager client_id) in
     match customer with
     | Some c => details c
     | None => Py.ret ("Error: Business client with ID " ++ pretty client_id ++
                       " not found in the database.")
     end)
    (fun e => Py.ret ("Error retrieving business client: " ++ str e)).

Definition get_business_client_by_email_tool (email : string) : Run string :=
  Py.try_except
    (let* manager := get_customer_manager in
     let* customer := Py.call (get_customer_by_email manager email) in
     match customer with
     | Some c => details c
     | None => Py.ret ("Error: Business client with email '" ++ email ++
                       "' not found in the database.")
     end)
    (fun e => Py.ret ("Error retrieving business client: " ++ str e)).

Definition entry (i : Z) (c : Customer) : Run string :=
  let* cr := credit_text c in
  let* st := status_text c in
  Py.ret (pretty i ++ ". Business Client ID: " ++ pretty (customer_id c) ++ nl ++
          "   Name: " ++ name c ++ nl ++
          "   Email: " ++ email c ++ nl ++
          "   Phone: " ++ phone c ++ nl ++
          "   Address: " ++ address c ++ nl ++
          "   Credit: ₹" ++ cr ++ nl ++
          "   Status: " ++ st ++ nl ++ nl).

(** [for i, customer in enumerate(customers, i): result += ...] *)
Fixpoint listing (i : Z) (customers : list Customer) (result : string) : Run string :=
  match customers with
  | [] => Py.ret result
  | c :: rest =>
      let* e := entry i c in
      listing (i + 1) rest (result ++ e)
  end.

Definition search_business_clients_tool (search_term : string) : Run string :=
  Py.try_except
    (let* manager := get_customer_manager in
     let* customers := Py.call (search_customers manager search_term) in
     match customers with
     | [] => Py.ret ("No business clients found matching the search term '" ++
                     search_term ++ "'.")
     | _ =>
         let* result :=
           listing 1 customers
             ("Found " ++ pretty (Z.of_nat (length customers)) ++
              " business client(s) matching '" ++ search_term ++ "':" ++ nl ++ nl) in
         Py.ret (py_strip W result)
     end)
    (fun e => Py.ret ("Error searching business clients: " ++ str e)).

Definition get_active_business_clients_tool : Run string :=
  Py.try_except
    (let* manager := get_customer_manager in
     let* customers := Py.call (get_active_customers manager) in
     match customers with
     | [] => Py.ret "No active business clients found in the database."
     | _ =>
         let* result :=
           listing 1 customers
             ("Total Active Business Clients: " ++
              pretty (Z.of_nat (length customers)) ++ nl ++ nl) in
         Py.ret (py_strip W result)
     end)
    (fun e => Py.ret ("Error retrieving active business clients: " ++ str e)).

Definition get_business_client_count_tool : Run string :=
  Py.try_except
    (let* manager := get_customer_manager in
     let* count := Py.call (get_customer_count manager) in
     let* active := Py.call (get_active_customers manager) in
     let active_count := Z.of_nat (length active) in
     let inactive_count := count - active_count in
     Py.ret ("Total Business Clients: " ++ pretty count ++ nl ++
             "Active Business Clients: " ++ pretty active_count ++ nl ++
             "Inactive Business Clients: " ++ pretty inactive_count))
    (fun e => Py.ret ("Error getting business client count: " ++ str e)).

Definition get_all_crm_tools : Run (list Tool) :=
  Py.ret [ mkTool "get_business_client_by_id"
             "Retrieve a business client's complete details by their client ID (CRM database).";
           mkTool "get_business_client_by_email"
             "Retrieve a business client's complete details by their email address (CRM database).";
           mkTool "search_business_clients"
             "Search for business clients by name or email using a search term (CRM database).";
           mkTool "get_active_business_clients"
             "Retrieve a list of all active business clients only (CRM database).";
           mkTool "get_business_client_count"
             "Get the total number of business clients in the CRM database." ].
End WithWorld.
End CrmTools.

(** ** tools/sql_tools.py *)

Module SqlTools.
Section WithWorld.
Variable W : World.

Definition get_database : Run unit :=
  let* db := Py.gets _db in
  match db with
  | None =>
      let db_uri := "sqlite:///" ++ chinook_database_full_path W in
      let* _ := Py.call (SQLDatabase_from_uri W db_uri) in
      Py.modify set_db
  | Some _ => Py.ret tt
  end.

Definition get_llm : Run LLM :=
  let* l := Py.gets _llm in
  match l with
  | None =>
      let* l' := Py.call (ChatOpenAI_sql W) in
      Py.modify (set_sql_llm l') ;;;
      Py.ret l'
  | Some l' => Py.ret l'
  end.

Definition create_chinook_query_chain : Run Chain :=
  let* c := Py.gets _sql_chain in
  match c with
  | Some chain => Py.ret chain
  | None =>
      get_database ;;;
      let* _ := get_llm in
      let* chain := Py.call (build_sql_chain W) in
      Py.modify (set_sql_chain chain) ;;;
      Py.ret chain
  end.

Definition query_music_database_tool (question : string) : Run string :=
  Py.try_except
    (let* chain := create_chinook_query_chain in
     Py.call (chain_invoke chain question))
    (fun e => Py.ret ("Error querying music database: " ++ str e ++ nl ++ nl ++
                      "Please try rephrasing your question or make it more specific.")).

Definition get_sql_tool : Run Tool :=
  Py.ret (mkTool "query_music_database"
    "Query the Chinook music store database using natural language.").
End WithWorld.
End SqlTools.

(** ** Generators

    An (async) generator is a computation that, besides changing the
    singletons and possibly raising, hands out values with [yield].  The
    values are collected in the order in which a consumer that pulls until
    the generator is exhausted receives them. *)

Module Gen.
Section Generator.
Context {Y : Type}.

Definition G (A : Type) : Type := Globals -> result A * list Y * Globals.

Definition ret {A} (a : A) : G A := fun s => (Returns a, [], s).

Definition raise {A} (e : exn) : G A := fun s => (Raises e, [], s).

Definition yield (y : Y) : G unit := fun s => (Returns tt, [y], s).

Definition lift {A} (m : Run A) : G A :=
  fun s => let '(r, s') := m s in (r, [], s').

Definition bind {A B} (m : G A) (k : A -> G B) : G B :=
  fun s =>
    match m s with
    | (Returns a, ys, s') => let '(r, zs, s'') := k a s' in (r, (ys ++ zs)%list, s'')
    | (Raises e, ys, s') => (Raises e, ys, s')
    end.

Definition try_except {A} (body : G A) (handler : exn -> G A) : G A :=
  fun s =>
    match body s with
    | (Returns a, ys, s') => (Returns a, ys, s')
    | (Raises e, ys, s') => let '(r, zs, s'') := handler e s' in (r, (ys ++ zs)%list, s'')
    end.

(** [async for chunk in <astream>: body chunk] *)
Fixpoint for_source (src : Source) (body : gmap string Any -> G unit) : G unit :=
  match src with
  | SDone => ret tt
  | SRaise e => raise e
  | SYield chunk rest => bind (body chunk) (fun _ => for_source rest body)
  end.
End Generator.
Arguments G : clear implicits.

(** [for x in xs: body x] over values already handed out *)
Fixpoint for_list {X Y} (xs : list X) (body : X -> G Y unit) : G Y unit :=
  match xs with
  | [] => ret tt
  | x :: rest => bind (body x) (fun _ => for_list rest body)
  end.

(** [async for x in gen: body x]: the loop body runs on each value [gen]
    yields; when [gen] raises, the exception surfaces in the consumer after
    the values yielded before it.  The effects of [gen] on the singletons
    are taken before those of the loop bodies; the bodies of the routes
    have none. *)
Definition for_in {X Y} (gen : G X unit) (body : X -> G Y unit) : G Y unit :=
  fun s =>
    let '(r, xs, s1) := gen s in
    match for_list xs body s1 with
    | (Returns _, ys, s2) =>
        match r with
        | Returns _ => (Returns tt, ys, s2)
        | Raises e => (Raises e, ys, s2)
        end
    | (Raises e, ys, s2) => (Raises e, ys, s2)
    end.
End Gen.

(** ** services/agent_service.py *)

Module Agent.
Section WithWorld.
Variable W : World.

Definition initialize : Run bool :=
  let* ex := Py.gets (fun g => agent_executor (agent_service g)) in
  match ex with
  | Some _ => Py.ret true
  | None =>
      Py.try_except
        (let* l := Py.call (ChatOpenAI_agent W) in
         Py.modify (with_agent (set_llm l)) ;;;
         let* search_tools := SearchTools.get_all_search_tools W in
         let* crm_tools := CrmTools.get_all_crm_tools in
         let* sql_tool := SqlTools.get_sql_tool in
         let* retriever_tool := FAISS.get_retriever_tool W in
         let all_tools :=
           match retriever_tool with
           | Some t => ((search_tools ++ crm_tools ++ [sql_tool]) ++ [t])%list
           | None => (search_tools ++ crm_tools ++ [sql_tool])%list
           end in
         Py.modify (with_agent (set_tools all_tools)) ;;;
         let* e := Py.call (create_react_agent W l all_tools) in
         Py.modify (with_agent (set_agent_executor e)) ;;;
         Py.ret true)
        (fun _ => Py.ret false)
  end.

(** the wire history as [invoke] and [stream] receive it: a list of
    dicts with the keys "role" and "content" *)
Fixpoint history_messages (conversation_history : list (gmap string string))
  : list Message :=
  match conversation_history with
  | [] => []
  | msg :: rest =>
      ((if decide (msg !! "role" = Some "user")
        then [HumanMessage (default "" (msg !! "content"))]
        else if decide (msg !! "role" = Some "assistant")
        then [AIMessage (default "" (msg !! "content")) []]
        else [])
       ++ history_messages rest)%list
  end.

(** the message list both [invoke] and [stream] build *)
Definition build_messages (system_message : option string)
    (message : string) (conversation_history : option (list (gmap string string)))
  : list Message :=
  ((match system_message with
    | Some sm => if decide (sm = "") then [] else [SystemMessage sm]
    | None => []
    end)
   ++ (match conversation_history with
       | Some h => history_messages h
       | None => []
       end)
   ++ [HumanMessage message])%list.

Definition invoke (message : string)
    (conversation_history : option (list (gmap string string)))
  : Run (gmap string (list Message)) :=
  let* ex := Py.gets (fun g => agent_executor (agent_service g)) in
  match ex with
  | None => initialize ;;; Py.ret tt
  | Some _ => Py.ret tt
  end ;;;
  Py.try_except
    (let* sm := Py.gets (fun g => system_message (agent_service g)) in
     let messages := build_messages sm message conversation_history in
     let* ex := Py.gets (fun g => agent_executor (agent_service g)) in
     match ex with
     | Some e => Py.call (executor_invoke W e messages)
     | None => Py.raise (Exception "'NoneType' object has no attribute 'invoke'")
     end)
    (fun e => Py.raise e).

Definition stream (message : string)
    (conversation_history : option (list (gmap string string)))
  : Gen.G (gmap string Any) unit :=
  Gen.bind
    (Gen.lift
       (let* ex := Py.gets (fun g => agent_executor (agent_service g)) in
        match ex with
        | None => initialize ;;; Py.ret tt
        | Some _ => Py.ret tt
        end))
    (fun _ =>
       Gen.try_except
         (Gen.bind (Gen.lift (Py.gets (fun g => system_message (agent_service g))))
            (fun sm =>
               let messages := build_messages sm message conversation_history in
               Gen.bind (Gen.lift (Py.gets (fun g => agent_executor (agent_service g))))
                 (fun ex =>
                    match ex with
                    | Some e =>
                        Gen.for_source (executor_astream W e messages)
                          (fun chunk => Gen.yield chunk)
                    | None =>
                        Gen.raise
                          (Exception "'NoneType' object has no attribute 'astream'")
                    end)))
         (fun e => Gen.raise e)).

Definition get_tools_info : Run (list (gmap string string)) :=
  let* ts := Py.gets (fun g => tools (agent_service g)) in
  match ts with
  | [] => initialize ;;; Py.ret tt
  | _ => Py.ret tt
  end ;;;
  let* ts := Py.gets (fun g => tools (agent_service g)) in
  Py.ret (map (fun t => <["name" := tool_name t]>
                        (<["description" := tool_description t]> ∅)) ts).

Definition is_ready : Run bool :=
  Py.gets (fun g => bool_decide (is_Some (agent_executor (agent_service g)))).

Definition get_info : Run (gmap string Any) :=
  let* ready := is_ready in
  let* s := Py.gets agent_service in
  Py.ret (<["initialized" := ABool ready]>
         (<["model" := match llm s with
                       | Some _ => AStr (agent_model_name W) | None => ANone end]>
         (<["tools_count" := AInt (Z.of_nat (length (tools s)))]>
         (<["tools" := AList (map tool_name (tools s))]>
         (<["system_message" := match system_message s with
                                | Some m => AStr m | None => ANone end]> ∅))))).
End WithWorld.
End Agent.

(** ** api/models.py *)

Inductive MessageRole : Type := USER | ASSISTANT | SYSTEM.

Definition MessageRole_value (r : MessageRole) : string :=
  match r with USER => "user" | ASSISTANT => "assistant" | SYSTEM => "system" end.

(** [MessageRole(s)]: the member whose value is [s], if any *)
Definition MessageRole_of_value (s : string) : option MessageRole :=
  if decide (s = "user") then Some USER
  else if decide (s = "assistant") then Some ASSISTANT
  else if decide (s = "system") then Some SYSTEM
  else None.

Module ConversationMessage.
Record t : Type := mk { role : MessageRole; content : string }.
End ConversationMessage.

Module ChatRequest.
Record t : Type := mk {
  message : string;
  conversation_history : option (list ConversationMessage.t)
}.
End ChatRequest.

Module ChatResponse.
Record t : Type := mk {
  message : string;
  conversation_history : list ConversationMessage.t;
  metadata : option (gmap string Any)
}.
End ChatResponse.

Inductive StreamEventType : Type := START | AGENT | TOOL | END | ERROR.

Definition StreamEventType_value (t : StreamEventType) : string :=
  match t with
  | START => "start" | AGENT => "agent" | TOOL => "tool"
  | END => "end" | ERROR => "error"
  end.

Module StreamEvent.
Record t : Type := mk { event : StreamEventType; data : gmap string Any }.
End StreamEvent.

Inductive HealthStatus : Type := HEALTHY | DEGRADED | UNHEALTHY.

Definition HealthStatus_value (h : HealthStatus) : string :=
  match h with
  | HEALTHY => "healthy" | DEGRADED => "degraded" | UNHEALTHY => "unhealthy"
  end.

Module ComponentHealth.
Record t : Type := mk {
  status : HealthStatus;
  message : option string;
  details : option (gmap string Any)
}.
End ComponentHealth.

Module HealthResponse.
Record t : Type := mk {
  status : HealthStatus;
  components : gmap string ComponentHealth.t;
  version : option string;
  timestamp : option string
}.
End HealthResponse.

(** *** Validation of a request body against [ChatRequest]

    The body as it arrives: the JSON value under each key, [None] when the
    key is absent. *)
Module RawChatRequest.
Record t : Type := mk {
  message : option Any;
  conversation_history : option (list (gmap string Any))
}.
End RawChatRequest.

Module ValidationError.
Record t : Type := mk { loc : list string; msg : string; type : string }.
End ValidationError.

Module Models.
Definition validate_role (loc : list string) (v : option Any)
  : list ValidationError.t + MessageRole :=
  match v with
  | None => inl [ValidationError.mk loc "Field required" "missing"]
  | Some (AStr s) =>
      match MessageRole_of_value s with
      | Some r => inr r
      | None => inl [ValidationError.mk loc
                       "Input should be 'user', 'assistant' or 'system'" "enum"]
      end
  | Some _ => inl [ValidationError.mk loc
                     "Input should be 'user', 'assistant' or 'system'" "enum"]
  end.

Definition validate_str (loc : list string) (v : option Any)
  : list ValidationError.t + string :=
  match v with
  | None => inl [ValidationError.mk loc "Field required" "missing"]
  | Some (AStr s) => inr s
  | Some _ => inl [ValidationError.mk loc "Input should be a valid string" "string_type"]
  end.

(** both fields are checked and their errors accumulated *)
Definition both {A B C} (f : A -> B -> C)
    (a : list ValidationError.t + A) (b : list ValidationError.t + B)
  : list ValidationError.t + C :=
  match a, b with
  | inr x, inr y => inr (f x y)
  | inl e1, inl e2 => inl (e1 ++ e2)%list
  | inl e1, inr _ => inl e1
  | inr _, inl e2 => inl e2
  end.

Definition validate_entry (loc : list string) (e : gmap string Any)
  : list ValidationError.t + ConversationMessage.t :=
  both ConversationMessage.mk
    (validate_role (loc ++ ["role"]) (e !! "role"))
    (validate_str (loc ++ ["content"]) (e !! "content")).

Fixpoint validate_history (loc : list string) (i : nat) (h : list (gmap string Any))
  : list ValidationError.t + list ConversationMessage.t :=
  match h with
  | [] => inr []
  | e :: rest =>
      both cons (validate_entry (loc ++ [pretty i]) e)
                (validate_history loc (S i) rest)
  end.

(** [message: str = Field(..., min_length=1, max_length=10000)]; lengths
    are counted on the string as the model has it *)
Definition validate_message (loc : list string) (v : option Any)
  : list ValidationError.t + string :=
  match validate_str loc v with
  | inl e => inl e
  | inr s =>
      if decide (Z.of_nat (String.length s) < 1)
      then inl [ValidationError.mk loc
                  "String should have at least 1 character" "string_too_short"]
      else if decide (10000 < Z.of_nat (String.length s))
      then inl [ValidationError.mk loc
                  "String should have at most 10000 characters" "string_too_long"]
      else inr s
  end.

Definition validate_chat_request (body : RawChatRequest.t)
  : list ValidationError.t + ChatRequest.t :=
  both ChatRequest.mk
    (validate_message ["body"; "message"] (RawChatRequest.message body))
    (match RawChatRequest.conversation_history body with
     | None => inr None
     | Some h =>
         match validate_history ["body"; "conversation_history"] 0 h with
         | inl e => inl e
         | inr l => inr (Some l)
         end
     end).
End Models.

(** ** api/middleware.py *)

Inductive Response (A : Type) : Type :=
| Success (body : A)
| Failure (status_code : Z) (detail : string)
| Invalid (status_code : Z) (validation_errors : list (gmap string string)).
Arguments Success {A} body.
Arguments Failure {A} status_code detail.
Arguments Invalid {A} status_code validation_errors.

Definition status_code_of {A} (r : Response A) : Z :=
  match r with
  | Success _ => 200
  | Failure c _ => c
  | Invalid c _ => c
  end.

Module Middleware.
(** [" -> ".join(str(loc) for loc in error["loc"])] *)
Fixpoint join (sep : string) (parts : list string) : string :=
  match parts with
  | [] => ""
  | [x] => x
  | x :: rest => x ++ sep ++ join sep rest
  end.

Definition format_error (error : ValidationError.t) : gmap string string :=
  <["field" := join " -> " (ValidationError.loc error)]>
  (<["message" := ValidationError.msg error]>
  (<["type" := ValidationError.type error]> ∅)).

Definition validation_exception_handler {A} (errors : list ValidationError.t)
  : Response A :=
  Invalid 422 (map format_error errors).

Definition http_exception_handler {A} (status_code : Z) (detail : string)
  : Response A :=
  Failure status_code detail.

Definition general_exception_handler {A} (msg : string) : Response A :=
  Failure 500 "Internal server error occurred".

(** how the application answers what a dependency or a route handler
    returned or raised *)
Definition respond {A} (r : result A) : Response A :=
  match r with
  | Returns a => Success a
  | Raises (HTTPException c d) => http_exception_handler c d
  | Raises (Exception m) => general_exception_handler m
  end.
End Middleware.

(** ** api/dependencies.py *)

Module Dependencies.
Section WithWorld.
Variable W : World.

Definition get_agent_service : Run unit :=
  let* ready := Agent.is_ready in
  if negb ready then
    let* success := Agent.initialize W in
    if negb success
    then Py.raise (HTTPException 503 "Agent service initialization failed")
    else Py.ret tt
  else Py.ret tt.

Definition get_faiss_service : Run unit :=
  let* ready := FAISS.is_ready in
  if negb ready then FAISS.initialize W ;;; Py.ret tt else Py.ret tt.

Definition get_customer_manager : Run CustomerManager :=
  let db_uri := "sqlite:///" ++ crm_database_full_path W in
  Py.call (CustomerManager_new W db_uri).
End WithWorld.
End Dependencies.

(** ** api/routes.py *)

Module Routes.
Section WithWorld.
Variable W : World.

(** [[{"role": msg.role.value, "content": msg.content} for msg in ...]],
    or [None] when the request has no (or an empty) history *)
Definition history_dicts (request : ChatRequest.t)
  : option (list (gmap string string)) :=
  match ChatRequest.conversation_history request with
  | None | Some [] => None
  | Some h =>
      Some (map (fun msg =>
                   <["role" := MessageRole_value (ConversationMessage.role msg)]>
                   (<["content" := ConversationMessage.content msg]> ∅)) h)
  end.

(** the loop of [chat] over the messages of the result: the history built
    so far and the content of the last AI message seen *)
Fixpoint collect (messages : list Message)
    (conversation_history : list ConversationMessage.t) (assistant_message : string)
  : list ConversationMessage.t * string :=
  match messages with
  | [] => (conversation_history, assistant_message)
  | msg :: rest =>
      let msg_type := class_name msg in
      let content := msg_content msg in
      if decide (msg_type = "HumanMessage") then
        collect rest
          (conversation_history ++ [ConversationMessage.mk USER content])
          assistant_message
      else if decide (msg_type = "AIMessage") then
        collect rest
          (conversation_history ++ [ConversationMessage.mk ASSISTANT content])
          content
      else collect rest conversation_history assistant_message
  end.

Definition chat (request : ChatRequest.t) : Run ChatResponse.t :=
  Py.try_except
    (let history := history_dicts request in
     let* result := Agent.invoke W (ChatRequest.message request) history in
     let messages := default [] (result !! "messages") in
     let '(conversation_history, assistant_message) := collect messages [] "" in
     let* ts := Py.gets (fun g => tools (agent_service g)) in
     Py.ret (ChatResponse.mk assistant_message conversation_history
               (Some (<["response_time_ms" := AInt (response_time_ms W)]>
                     (<["tools_available" := AInt (Z.of_nat (length ts))]> ∅)))))
    (fun e => Py.raise (HTTPException 500 ("Error processing chat request: " ++ str e))).

Definition start_event : StreamEvent.t :=
  StreamEvent.mk START (<["message" := AStr "Streaming started"]> ∅).

Definition end_event : StreamEvent.t :=
  StreamEvent.mk END (<["message" := AStr "Streaming complete"]> ∅).

Definition error_event (e : exn) : StreamEvent.t :=
  StreamEvent.mk ERROR (<["error" := AStr (str e)]> ∅).

(** "Determine event type based on chunk keys" *)
Definition event_type_of (chunk : gmap string Any) : StreamEventType :=
  if decide (is_Some (chunk !! "agent")) then AGENT
  else if decide (is_Some (chunk !! "tools")) then TOOL
  else AGENT.

(** Each yielded frame ["data: <json>\n\n"] is represented by the
    [StreamEvent] it serialises. *)
Definition event_generator (request : ChatRequest.t) : Gen.G StreamEvent.t unit :=
  Gen.try_except
    (Gen.bind (Gen.yield start_event) (fun _ =>
     let history := history_dicts request in
     Gen.bind
       (Gen.for_in (Agent.stream W (ChatRequest.message request) history)
          (fun chunk =>
             let event_type := event_type_of chunk in
             Gen.yield (StreamEvent.mk event_type chunk)))
       (fun _ => Gen.yield end_event)))
    (fun e => Gen.yield (error_event e)).

Definition get_ (info : gmap string Any) (key : string) : Any :=
  default ANone (info !! key).

Definition health (customer_db : CustomerManager) : Run HealthResponse.t :=
  let components : gmap string ComponentHealth.t := ∅ in
  let overall_status := HEALTHY in
  (* Check agent service *)
  let* (components, overall_status) :=
    Py.try_except
      (let* agent_ready := Agent.is_ready in
       if agent_ready then
         let* agent_info := Agent.get_info W in
         Py.ret (<["agent" := ComponentHealth.mk HEALTHY
                      (Some "Agent service operational")
                      (Some (<["model" := get_ agent_info "model"]>
                            (<["tools_count" := get_ agent_info "tools_count"]> ∅)))]>
                 components, overall_status)
       else
         Py.ret (<["agent" := ComponentHealth.mk UNHEALTHY
                      (Some "Agent service not initialized") None]> components,
                 DEGRADED))
      (fun e =>
         Py.ret (<["agent" := ComponentHealth.mk UNHEALTHY
                      (Some ("Agent service error: " ++ str e)) None]> components,
                 UNHEALTHY)) in
  (* Check FAISS service *)
  let* components :=
    Py.try_except
      (let* faiss_ready := FAISS.is_ready in
       if faiss_ready then
         let* faiss_info := FAISS.get_info W in
         Py.ret (<["faiss" := ComponentHealth.mk HEALTHY
                      (Some "FAISS service operational")
                      (Some (<["tool_name" := get_ faiss_info "tool_name"]>
                            (<["cache_enabled" := get_ faiss_info "cache_enabled"]> ∅)))]>
                 components)
       else
         Py.ret (<["faiss" := ComponentHealth.mk DEGRADED
                      (Some "FAISS service not initialized (optional)") None]>
                 components))
      (fun e =>
         Py.ret (<["faiss" := ComponentHealth.mk DEGRADED
                      (Some ("FAISS service warning: " ++ str e)) None]> components)) in
  (* Check database *)
  let* (components, overall_status) :=
    Py.try_except
      (let* customer_count := Py.call (get_customer_count customer_db) in
       Py.ret (<["database" := ComponentHealth.mk HEALTHY
                    (Some "Database accessible")
                    (Some (<["crm_customers" := AInt customer_count]>
                          (<["database_path" := AStr (crm_database_full_path W)]> ∅)))]>
               components, overall_status))
      (fun e =>
         Py.ret (<["database" := ComponentHealth.mk UNHEALTHY
                      (Some ("Database error: " ++ str e)) None]> components,
                 UNHEALTHY)) in
  Py.ret (HealthResponse.mk overall_status components (Some "1.0.0")
            (Some (utcnow_isoformat W))).

(** [GET /health]: FastAPI resolves the three dependencies of the handler
    in the order of its parameters, calls it, and hands whatever is raised
    on the way to the registered exception handlers. *)
Definition get_health : Globals -> Response HealthResponse.t * Globals :=
  fun g =>
    let '(r, g') :=
      (Dependencies.get_agent_service W ;;;
       Dependencies.get_faiss_service W ;;;
       let* customer_db := Dependencies.get_customer_manager W in
       health customer_db) g in
    (Middleware.respond r, g').
End WithWorld.
End Routes.

(** ** Concrete worlds, used to run the model *)

Module Demo.
Definition customers : list Customer :=
  [ mkCustomer 1 "Asha Rao" "12 MG Road" "asha@example.com" "9000000001"
      (Some 2500) (Some ACTIVE);
    mkCustomer 2 "Vikram Shah" "4 Park Street" "vikram@example.com" "9000000002"
      (Some 0) (Some INACTIVE) ].

Definition manager (count : result Z) : CustomerManager :=
  mkCustomerManager
    (fun i => Returns (find (fun c => bool_decide (customer_id c = i)) customers))
    (fun e => Returns (find (fun c => bool_decide (email c = e)) customers))
    (fun _ => Returns customers)
    (Returns (take 1 customers))
    count.

(** a manager whose database cannot be reached *)
Definition broken_manager : CustomerManager :=
  mkCustomerManager
    (fun _ => Raises (Exception "unable to open database file"))
    (fun _ => Raises (Exception "unable to open database file"))
    (fun _ => Raises (Exception "unable to open database file"))
    (Raises (Exception "unable to open database file"))
    (Raises (Exception "unable to open database file")).

Definition chain (answer : result string) : Chain := mkChain (fun _ => answer).

Definition world (openai : result LLM) (arxiv : result unit)
    (urls : list string) (db : result CustomerManager)
    (answer : list Message) (src : Source) : World :=
  {| agent_model_name := "gpt-4o-mini";
     agent_system_message := None;
     faiss_cache_enabled := false;
     faiss_cache_path := "cache/faiss_index";
     faiss_urls_list := urls;
     faiss_tool_name := "langsmith_search";
     faiss_tool_description := "Search for information about LangSmith.";
     crm_database_full_path := "data/crm.db";
     chinook_database_full_path := "data/chinook.db";
     ChatOpenAI_agent := openai;
     ArxivQueryRun := arxiv;
     WikipediaQueryRun := Returns tt;
     create_react_agent := fun l ts => Returns (mkExecutor l ts);
     executor_invoke := fun _ _ => Returns (<["messages" := answer]> ∅);
     executor_astream := fun _ _ => src;
     WebBaseLoader_load := fun url => Returns [url];
     split_documents := fun docs => Returns docs;
     OpenAIEmbeddings := Returns tt;
     FAISS_from_documents := fun docs => Returns docs;
     FAISS_save_local := Returns tt;
     cache_path_exists := false;
     FAISS_load_local := Raises (Exception "no such file");
     create_retriever_tool := fun n d => Returns (mkTool n d);
     CustomerManager_new := fun _ => db;
     SQLDatabase_from_uri := fun _ => Returns tt;
     ChatOpenAI_sql := Returns (mkLLM "gpt-4o-mini");
     build_sql_chain := Returns (chain (Raises (Exception "no such table: Track")));
     DuckDuckGo_run := fun _ => Raises (Exception "rate limited");
     format_credit := pretty;
     py_strip := fun s => s;
     utcnow_isoformat := "2025-01-01T00:00:00";
     response_time_ms := 12 |}.

Definition gpt : result LLM := Returns (mkLLM "gpt-4o-mini").

Definition tool_call : ToolCall :=
  mkToolCall "get_business_client_count" "{}" "call_1".

(** the messages LangGraph returns for a run with one tool call *)
Definition one_tool_run : list Message :=
  [ HumanMessage "How many active customers do we have?";
    AIMessage "" [tool_call];
    ToolMessage "Total Business Clients: 2" "call_1";
    AIMessage "There are 2 business clients." [] ].

Definition agent_chunk : gmap string Any :=
  <["agent" := AMessages [AIMessage "" [tool_call]]]> ∅.
Definition tools_chunk : gmap string Any :=
  <["tools" := AMessages [ToolMessage "Total Business Clients: 2" "call_1"]]> ∅.

Definition one_tool_stream : Source :=
  SYield agent_chunk (SYield tools_chunk (SYield agent_chunk SDone)).

(** everything is available *)
Definition all_up : World :=
  world gpt (Returns tt) ["https://docs.smith.langchain.com/"]
        (Returns (manager (Returns 2))) one_tool_run one_tool_stream.

(** no URL is configured for the vector store: the retriever cannot be
    built *)
Definition no_retriever : World :=
  world gpt (Returns tt) [] (Returns (manager (Returns 2)))
        one_tool_run one_tool_stream.

(** the ArXiv wrapper cannot be constructed *)
Definition no_arxiv : World :=
  world gpt (Raises (Exception "Could not import arxiv python package."))
        ["https://docs.smith.langchain.com/"]
        (Returns (manager (Returns 2))) one_tool_run one_tool_stream.

(** the LLM client cannot be constructed *)
Definition no_llm : World :=
  world (Raises (Exception "The api_key client option must be set"))
        (Returns tt) ["https://docs.smith.langchain.com/"]
        (Returns (manager (Returns 2))) one_tool_run one_tool_stream.

(** the CRM database is unreachable *)
Definition no_database : World :=
  world gpt (Returns tt) ["https://docs.smith.langchain.com/"]
        (Returns broken_manager) one_tool_run one_tool_stream.

End Demo.

(** the invocations of the tool functions this repository defines *)
Inductive ToolInvocation : Type :=
| get_business_client_by_id (client_id : Z)
| get_business_client_by_email (email : string)
| search_business_clients (search_term : string)
| get_active_business_clients
| get_business_client_count
| query_music_database (question : string)
| DuckDuckGoSearch (query_string : string).

Definition run_tool (W : World) (call : ToolInvocation) : Run string :=
  match call with
  | get_business_client_by_id i => CrmTools.get_business_client_by_id_tool W i
  | get_business_client_by_email e => CrmTools.get_business_client_by_email_tool W e
  | search_business_clients t => CrmTools.search_business_clients_tool W t
  | get_active_business_clients => CrmTools.get_active_business_clients_tool W
  | get_business_client_count => CrmTools.get_business_client_count_tool W
  | query_music_database q => SqlTools.query_music_database_tool W q
  | DuckDuckGoSearch q => SearchTools.duckduckgo_search W q
  end.

(** * Vocabulary of the statements *)

(** the tools that do not depend on the vector store, in registration
    order *)
Definition base_tools : list Tool :=
  [ mkTool "ArxivSearch"
      "Use this tool to search for academic papers and research articles on ArXiv. Useful for scientific and technical topics.";
    mkTool "DuckDuckGoSearch"
      "Search the internet using DuckDuckGo for any kinds of information.";
    mkTool "WikipediaSearch"
      "Use this tool when you want to search for information on Wikipedia by Terms, Keywords or any Topics.";
    mkTool "get_business_client_by_id"
      "Retrieve a business client's complete details by their client ID (CRM database).";
    mkTool "get_business_client_by_email"
      "Retrieve a business client's complete details by their email address (CRM database).";
    mkTool "search_business_clients"
      "Search for business clients by name or email using a search term (CRM database).";
    mkTool "get_active_business_clients"
      "Retrieve a list of all active business clients only (CRM database).";
    mkTool "get_business_client_count"
      "Get the total number of business clients in the CRM database.";
    mkTool "query_music_database"
      "Query the Chinook music store database using natural language." ].

Definition same_but_faiss (g g' : Globals) : Prop :=
  agent_service g' = agent_service g /\
  _customer_manager g' = _customer_manager g /\
  _db g' = _db g /\ _llm g' = _llm g /\ _sql_chain g' = _sql_chain g.

Definition component_status (body : HealthResponse.t) (key : string)
  : option HealthStatus :=
  ComponentHealth.status <$> (HealthResponse.components body !! key).



(** the event a chunk is forwarded as *)
Definition forward (chunk : gmap string Any) : StreamEvent.t :=
  StreamEvent.mk (Routes.event_type_of chunk) chunk.



(** the internal messages a validated wire entry becomes on its way through
    [chat] and [invoke] *)
Definition converted (msg : ConversationMessage.t) : list Message :=
  match ConversationMessage.role msg with
  | USER => [HumanMessage (ConversationMessage.content msg)]
  | ASSISTANT => [AIMessage (ConversationMessage.content msg) []]
  | SYSTEM => []
  end.

(** the wire entry, if any, that [chat] returns for an internal message *)
Definition visible (m : Message) : list ConversationMessage.t :=
  match m with
  | HumanMessage c => [ConversationMessage.mk USER c]
  | AIMessage c _ => [ConversationMessage.mk ASSISTANT c]
  | SystemMessage _ | ToolMessage _ _ => []
  end.

(** The externally visible history as §4.2 words it: system messages and
    the tool-call and tool-result messages of the loop omitted. *)
Definition visible_as_specified (m : Message) : list ConversationMessage.t :=
  match m with
  | HumanMessage c => [ConversationMessage.mk USER c]
  | AIMessage c [] => [ConversationMessage.mk ASSISTANT c]
  | AIMessage _ (_ :: _) | SystemMessage _ | ToolMessage _ _ => []
  end.

Definition system_prefix (system_message : option string) : list Message :=
  match system_message with
  | Some sm => if decide (sm = "") then [] else [SystemMessage sm]
  | None => []
  end.

Definition entry_dict (msg : ConversationMessage.t) : gmap string string :=
  <["role" := MessageRole_value (ConversationMessage.role msg)]>
  (<["content" := ConversationMessage.content msg]> ∅).

Definition errors_of {A} (r : list ValidationError.t + A) : list ValidationError.t :=
  match r with inl es => es | inr _ => [] end.

Definition bad_role (s : string) : Prop :=
  s <> "user" /\ s <> "assistant" /\ s <> "system".

(** * Further code of the back-end *)

(** ** Python strings

    A string is the sequence of its characters; [len], slices and [split]
    act on that sequence. *)

(** [s.split(sep)] for a separator of one character: at least one piece *)
Fixpoint split_on (sep : Ascii.ascii) (s : string) : list string :=
  match s with
  | EmptyString => [""]
  | String c rest =>
      if decide (c = sep) then "" :: split_on sep rest
      else match split_on sep rest with
           | [] => [String c ""]
           | w :: ws => String c w :: ws
           end
  end.

Fixpoint take_str (n : nat) (s : string) : string :=
  match n, s with
  | O, _ => ""
  | S _, EmptyString => ""
  | S n', String c rest => String c (take_str n' rest)
  end.

(** [s[:k]]: the first [k] characters, or, for a negative [k], all but the
    last [-k] *)
Definition slice_to (s : string) (k : Z) : string :=
  if decide (0 <= k) then take_str (Z.to_nat k) s
  else take_str (Z.to_nat (Z.of_nat (String.length s) + k)) s.

Definition len (s : string) : Z := Z.of_nat (String.length s).

Definition comma : Ascii.ascii := Ascii.ascii_of_nat 44.
Definition colon : Ascii.ascii := Ascii.ascii_of_nat 58.

(** ** tools/sql_tools.py: [parse_sql_query] *)

Definition parse_sql_query (W : World) (query_string : string) : string :=
  let splitted_string := split_on colon query_string in
  let query :=
    if decide (2 <= length splitted_string)%nat
    then py_strip W (default "" (splitted_string !! 1%nat))
    else query_string in
  py_strip W query.

(** ** config/settings.py *)

Module Settings.
(** [[x.strip() for x in s.split(",") if x.strip()]] *)
Definition comma_list (W : World) (s : string) : list string :=
  flat_map (fun x => if decide (py_strip W x = "") then [] else [py_strip W x])
           (split_on comma s).

Definition cors_origins_list (W : World) (cors_allow_origins : string) : list string :=
  if decide (cors_allow_origins = "") then [] else comma_list W cors_allow_origins.

(** the lines of urls.txt that are kept: stripped, not empty, not a comment *)
Definition file_urls (W : World) (lines : list string) : list string :=
  flat_map (fun line =>
              if decide (py_strip W line = "") then []
              else if String.prefix "#" (py_strip W line) then []
              else [py_strip W line])
           lines.

(** "Remove duplicates while preserving order" *)
Fixpoint unique_loop (urls : list string) (seen : gset string)
    (unique_urls : list string) : list string :=
  match urls with
  | [] => unique_urls
  | url :: rest =>
      if decide (url ∈ seen) then unique_loop rest seen unique_urls
      else unique_loop rest ({[url]} ∪ seen) (unique_urls ++ [url])
  end.

(** [urls_txt] holds the lines of the URLs file, [None] when the file does
    not exist *)
Definition faiss_urls_list (W : World) (urls_txt : option (list string))
    (faiss_additional_urls : string) : list string :=
  let urls :=
    match urls_txt with
    | Some lines => file_urls W lines
    | None => []
    end in
  let urls :=
    if decide (faiss_additional_urls = "") then urls
    else (urls ++ comma_list W faiss_additional_urls)%list in
  unique_loop urls ∅ [].
End Settings.

(** ** utils/helpers.py *)

Module Helpers.
Definition sanitize_message (W : World) (message : string) (max_length : Z) : string :=
  let message := py_strip W message in
  if decide (max_length < len message) then slice_to message max_length
  else message.

(** [for msg in reversed(messages)] *)
Fixpoint last_ai_loop (reversed : list Message) : string :=
  match reversed with
  | [] => ""
  | msg :: rest =>
      if decide (class_name msg = "AIMessage") then msg_content msg
      else last_ai_loop rest
  end.

Definition extract_last_ai_message (messages : list Message) : string :=
  last_ai_loop (rev messages).

Definition role_dict (role content : string) : gmap string string :=
  <["role" := role]> (<["content" := content]> ∅).

Fixpoint build_loop (messages : list Message) (history : list (gmap string string))
  : list (gmap string string) :=
  match messages with
  | [] => history
  | msg :: rest =>
      let msg_type := class_name msg in
      let content := msg_content msg in
      if decide (msg_type = "HumanMessage")
      then build_loop rest (history ++ [role_dict "user" content])
      else if decide (msg_type = "AIMessage")
      then build_loop rest (history ++ [role_dict "assistant" content])
      else if decide (msg_type = "SystemMessage")
      then build_loop rest (history ++ [role_dict "system" content])
      else build_loop rest history
  end.

Definition build_conversation_history (messages : list Message)
  : list (gmap string string) :=
  build_loop messages [].

(** the checks made on one entry of the history *)
Definition valid_entry (msg : gmap string Any) : bool :=
  match msg !! "role", msg !! "content" with
  | Some role, Some content =>
      match role with
      | AStr r =>
          if decide (r = "user" \/ r = "assistant" \/ r = "system")
          then match content with AStr _ => true | _ => false end
          else false
      | _ => false
      end
  | _, _ => false
  end.

Fixpoint valid_entries (history : list (gmap string Any)) : bool :=
  match history with
  | [] => true
  | msg :: rest => if valid_entry msg then valid_entries rest else false
  end.

Definition validate_conversation_history (history : option (list (gmap string Any)))
  : bool :=
  match history with
  | None => true
  | Some h => valid_entries h
  end.

Definition truncate_string (text : string) (max_length : Z) (suffix : string) : string :=
  if decide (len text <= max_length) then text
  else slice_to text (max_length - len suffix) ++ suffix.
End Helpers.

(** ** api/routes.py: [GET /tools] *)

Module ToolInfo.
Record t : Type := mk { name : string; description : string }.
End ToolInfo.

Module ToolsResponse.
Record t : Type := mk { tools : list ToolInfo.t; total : Z }.
End ToolsResponse.

Module ToolsRoute.
Section WithWorld.
Variable W : World.

(** [tool["name"]]: a missing key raises a KeyError *)
Definition item (tool : gmap string string) (key : string) : Run string :=
  match tool !! key with
  | Some v => Py.ret v
  | None => Py.raise (Exception ("'" ++ key ++ "'"))
  end.

Fixpoint tool_infos (tools_info : list (gmap string string)) : Run (list ToolInfo.t) :=
  match tools_info with
  | [] => Py.ret []
  | tool :: rest =>
      let* n := item tool "name" in
      let* d := item tool "description" in
      let* infos := tool_infos rest in
      Py.ret (ToolInfo.mk n d :: infos)
  end.

Definition list_tools : Run ToolsResponse.t :=
  Py.try_except
    (let* tools_info := Agent.get_tools_info W in
     let* tools := tool_infos tools_info in
     Py.ret (ToolsResponse.mk tools (Z.of_nat (length tools))))
    (fun e => Py.raise (HTTPException 500 ("Error retrieving tools: " ++ str e))).
End WithWorld.
End ToolsRoute.

(** ** main.py: the startup half of [lifespan]

    [settings.validate_on_startup()] only yields warnings and
    [initialize_databases()] catches what its two steps raise and returns
    their results, which the startup does not read; neither touches the
    singletons. *)

Module Main.
Section WithWorld.
Variable W : World.

Definition startup : Run unit :=
  Py.try_except
    (Py.try_except (FAISS.initialize W ;;; Py.ret tt) (fun _ => Py.ret tt) ;;;
     let* agent_success := Agent.initialize W in
     if negb agent_success
     then Py.raise (Exception "Agent service initialization failed")
     else Py.ret tt)
    (fun e => Py.raise e).
End WithWorld.
End Main.

(** ** db/init_databases.py: the seeding loop of [setup_crm_database]

    [create n] tells what the [n]-th call of [manager.create_customer] with
    freshly drawn data does: it returns a customer ([true]), returns [None]
    because the e-mail is taken ([false]), or raises. *)

Module InitDatabases.
(** [while created_count < sample_records and attempts < max_attempts]:
    the loop goes on for as long as its condition holds.  What makes it end
    is the condition itself: every iteration adds one to [attempts], so
    [max_attempts - attempts] decreases while [attempts < max_attempts]. *)
Equations? seed_loop (create : Z -> result bool)
    (sample_records max_attempts created_count attempts : Z) : result (Z * Z)
    by wf (Z.to_nat (max_attempts - attempts)) lt :=
seed_loop create sample_records max_attempts created_count attempts
  with decide (created_count < sample_records /\ attempts < max_attempts) := {
  | left _ with create (attempts + 1) := {
      | Raises e => Raises e
      | Returns true =>
          seed_loop create sample_records max_attempts
                    (created_count + 1) (attempts + 1)
      | Returns false =>
          seed_loop create sample_records max_attempts
                    created_count (attempts + 1) }
  | right _ => Returns (created_count, attempts) }.
Proof.
  all: lia.
Qed.

(** the counters when the loop is left *)
Definition seed (create : Z -> result bool) (sample_records : Z) : result (Z * Z) :=
  let max_attempts := sample_records * 3 in
  seed_loop create sample_records max_attempts 0 0.

(** the creation of the database directory is counted with the
    construction of the manager: both are inside the [try] *)
Definition setup_crm_database (W : World) (create : Z -> result bool)
    (sample_records : Z) : bool :=
  match CustomerManager_new W ("sqlite:///" ++ crm_database_full_path W) with
  | Raises _ => false
  | Returns manager =>
      match get_customer_count manager with
      | Raises _ => false
      | Returns existing_count =>
          if decide (0 < existing_count) then true
          else match seed create sample_records with
               | Returns _ => true
               | Raises _ => false
               end
      end
  end.
End InitDatabases.

(** ** The reasoning loop

    Modelled from the spec: the tool dispatcher and reasoning loop of
    section 4.3 and the DispatchResult of section 3.  The repository hands
    the loop to LangGraph's [create_react_agent] (services/agent_service.py
    only constructs and calls it), so its code is not part of the sources;
    the loop below follows the five steps of section 4.3 and runs the tool
    functions of tools/*.py.  The model capability, the decoding of a
    call's arguments and the tools that the libraries provide are
    parameters. *)

Module Dispatcher.

(** Modelled from the spec: what the model capability returns in step 2, a
    final-answer assistant message or an assistant message carrying
    tool_call requests. *)
Inductive ModelReply : Type :=
| FinalAnswer (content : string)
| ToolCallRequest (content : string) (tool_calls : list ToolCall).

(** Modelled from the spec: the DispatchResult of section 3, the final
    assistant message content, the complete message sequence, the elapsed
    time and the tools available count. *)
Record DispatchResult : Type := mkDispatchResult {
  message : string;
  messages : list Message;
  response_time : Z;
  tools_available : nat
}.

(** Modelled from the spec: the invocation function of a tool, for the
    tools whose function is in tools/*.py.  The name is the one given to
    [@tool], the keys of the structured arguments are the parameter names
    of the function. *)
Definition as_invocation (name : string) (args : gmap string Any)
  : option ToolInvocation :=
  if decide (name = "get_business_client_by_id") then
    match args !! "client_id" with
    | Some (AInt i) => Some (get_business_client_by_id i)
    | _ => None
    end
  else if decide (name = "get_business_client_by_email") then
    match args !! "email" with
    | Some (AStr e) => Some (get_business_client_by_email e)
    | _ => None
    end
  else if decide (name = "search_business_clients") then
    match args !! "search_term" with
    | Some (AStr t) => Some (search_business_clients t)
    | _ => None
    end
  else if decide (name = "get_active_business_clients") then
    Some get_active_business_clients
  else if decide (name = "get_business_client_count") then
    Some get_business_client_count
  else if decide (name = "query_music_database") then
    match args !! "question" with
    | Some (AStr q) => Some (query_music_database q)
    | _ => None
    end
  else if decide (name = "DuckDuckGoSearch") then
    match args !! "query_string" with
    | Some (AStr q) => Some (DuckDuckGoSearch q)
    | _ => None
    end
  else None.

(** Modelled from the spec: the error string of step 3 for an exception
    the loop captures. *)
Definition error_string (e : exn) : string := "Error: " ++ str e.

(** Modelled from the spec: the error string of step 3 when the name does
    not resolve. *)
Definition unavailable (name : string) : string :=
  "Error: " ++ name ++ " is not a valid tool".

(** Modelled from the spec: what the model capability raises at its own
    step limit. *)
Definition step_limit : exn :=
  Exception "Recursion limit reached without hitting a stop condition".

Section WithWorld.
Variable W : World.
(** the external model capability, called with the message list and the
    tool descriptors of the registry *)
Variable model : list Message -> list Tool -> result ModelReply.
(** the structured arguments of a call *)
Variable arguments : string -> gmap string Any.
(** what the libraries do with an invocation that is not one of a function
    of tools/*.py: the Wikipedia, ArXiv and retriever tools, and a call
    whose arguments a tool's signature rejects *)
Variable library_tool : string -> gmap string Any -> result string.

(** Modelled from the spec: step 3, the tool's function run on the
    structured arguments. *)
Definition invocation (name : string) (args : gmap string Any) : Run string :=
  match as_invocation name args with
  | Some call => run_tool W call
  | None => Py.call (library_tool name args)
  end.

(** Modelled from the spec: step 3 for one tool_call.  The tool is
    resolved by name; its text result or, on exception, an error string is
    captured in a tool-result message with the id of the call. *)
Definition dispatch_tool (registry : list Tool) (call : ToolCall) : Run Message :=
  if decide (tc_name call ∈ map tool_name registry) then
    Py.try_except
      (let* text := invocation (tc_name call) (arguments (tc_args call)) in
       Py.ret (ToolMessage text (tc_id call)))
      (fun e => Py.ret (ToolMessage (error_string e) (tc_id call)))
  else Py.ret (ToolMessage (unavailable (tc_name call)) (tc_id call)).

(** Modelled from the spec: step 3 for the tool_calls of one response, in
    order. *)
Fixpoint dispatch_tools (registry : list Tool) (calls : list ToolCall)
  : Run (list Message) :=
  match calls with
  | [] => Py.ret []
  | call :: rest =>
      let* result := dispatch_tool registry call in
      let* results := dispatch_tools registry rest in
      Py.ret (result :: results)
  end.

(** Modelled from the spec: steps 2 to 5.  [limit] is the step limit of
    the model capability; a failure of the model capability is fatal. *)
Fixpoint loop (limit : nat) (registry : list Tool) (running : list Message)
  : Run (list Message) :=
  match limit with
  | O => Py.raise step_limit
  | S limit' =>
      let* reply := Py.call (model running registry) in
      match reply with
      | FinalAnswer content => Py.ret (running ++ [AIMessage content []])%list
      | ToolCallRequest content calls =>
          let* results := dispatch_tools registry calls in
          loop limit' registry (running ++ AIMessage content calls :: results)%list
      end
  end.

(** Modelled from the spec: step 5, the content of the terminal assistant
    message. *)
Definition final_content (running : list Message) : string :=
  match last running with
  | Some (AIMessage content _) => content
  | _ => ""
  end.

(** Modelled from the spec: a dispatch run, steps 1 to 5.  The outgoing
    messages are built by [build_messages] of services/agent_service.py. *)
Definition invoke (limit : nat) (message : string)
    (conversation_history : option (list (gmap string string)))
  : Run DispatchResult :=
  let* sm := Py.gets (fun g => system_message (agent_service g)) in
  let* registry := Py.gets (fun g => tools (agent_service g)) in
  let outgoing := Agent.build_messages sm message conversation_history in
  let* running := loop limit registry outgoing in
  Py.ret (mkDispatchResult (final_content running) running
                           (response_time_ms W) (length registry)).
End WithWorld.
End Dispatcher.

(** ** Further worlds *)

Module Demo2.
(** the index can be built but not saved: the cache directory is read-only *)
Definition unsaved_index : World :=
  {| agent_model_name := "gpt-4o-mini";
     agent_system_message := None;
     faiss_cache_enabled := true;
     faiss_cache_path := "cache/faiss_index";
     faiss_urls_list := ["https://docs.smith.langchain.com/"];
     faiss_tool_name := "langsmith_search";
     faiss_tool_description := "Search for information about LangSmith.";
     crm_database_full_path := "data/crm.db";
     chinook_database_full_path := "data/chinook.db";
     ChatOpenAI_agent := Demo.gpt;
     ArxivQueryRun := Returns tt;
     WikipediaQueryRun := Returns tt;
     create_react_agent := fun l ts => Returns (mkExecutor l ts);
     executor_invoke := fun _ _ => Raises (Exception "Connection error.");
     executor_astream := fun _ _ => SDone;
     WebBaseLoader_load := fun url => Returns [url];
     split_documents := fun docs => Returns docs;
     OpenAIEmbeddings := Returns tt;
     FAISS_from_documents := fun docs => Returns docs;
     FAISS_save_local := Raises (Exception "Permission denied");
     cache_path_exists := false;
     FAISS_load_local := Raises (Exception "no such file");
     create_retriever_tool := fun n d => Returns (mkTool n d);
     CustomerManager_new := fun _ => Returns (Demo.manager (Returns 0));
     SQLDatabase_from_uri := fun _ => Returns tt;
     ChatOpenAI_sql := Demo.gpt;
     build_sql_chain := Returns (Demo.chain (Returns "There are 3503 tracks."));
     DuckDuckGo_run := fun _ => Returns "results";
     format_credit := pretty;
     py_strip := fun s => s;
     utcnow_isoformat := "2025-01-01T00:00:00";
     response_time_ms := 12 |}.

(** nothing at all can be constructed *)
Definition all_down : World :=
  Demo.world (Raises (Exception "The api_key client option must be set"))
             (Raises (Exception "Could not import arxiv python package."))
             [] (Raises (Exception "unable to open database file"))
             [] (SRaise (Exception "Connection error.")).

(** every second generated e-mail is already taken *)
Definition every_other (n : Z) : result bool := Returns (Z.even n).

(** a manager over a table in which two customers have a NULL column: the
    first found by a search has no status, a later one has no credit *)
Definition null_status_manager : CustomerManager :=
  mkCustomerManager
    (fun _ => Returns (Some (mkCustomer 3 "Meera Nair" "7 Church Street"
                          "meera@example.com" "9000000003" None (Some ACTIVE))))
    (fun _ => Returns None)
    (fun _ => Returns (Demo.customers ++
                       [mkCustomer 4 "Ravi Iyer" "9 Lake Road"
                          "ravi@example.com" "9000000004" (Some 10) None;
                        mkCustomer 3 "Meera Nair" "7 Church Street"
                          "meera@example.com" "9000000003" None (Some ACTIVE)])%list)
    (Returns []) (Returns 4).

(** the CRM database holds rows with NULL columns *)
Definition null_columns : World :=
  Demo.world Demo.gpt (Returns tt) ["https://docs.smith.langchain.com/"]
             (Returns null_status_manager) Demo.one_tool_run Demo.one_tool_stream.

(** the pages to index cannot be fetched: the first URL times out, the
    second answers with nothing to index *)
Definition unreachable_pages : World :=
  {| agent_model_name := "gpt-4o-mini";
     agent_system_message := None;
     faiss_cache_enabled := false;
     faiss_cache_path := "cache/faiss_index";
     faiss_urls_list := ["https://docs.smith.langchain.com/";
                         "https://python.langchain.com/docs/"];
     faiss_tool_name := "langsmith_search";
     faiss_tool_description := "Search for information about LangSmith.";
     crm_database_full_path := "data/crm.db";
     chinook_database_full_path := "data/chinook.db";
     ChatOpenAI_agent := Demo.gpt;
     ArxivQueryRun := Returns tt;
     WikipediaQueryRun := Returns tt;
     create_react_agent := fun l ts => Returns (mkExecutor l ts);
     executor_invoke := fun _ _ => Raises (Exception "Connection error.");
     executor_astream := fun _ _ => SDone;
     WebBaseLoader_load := fun url =>
       if decide (url = "https://docs.smith.langchain.com/")
       then Raises (Exception "Connection timed out")
       else Returns [];
     split_documents := fun docs => Returns docs;
     OpenAIEmbeddings := Returns tt;
     FAISS_from_documents := fun docs => Returns docs;
     FAISS_save_local := Returns tt;
     cache_path_exists := false;
     FAISS_load_local := Raises (Exception "no such file");
     create_retriever_tool := fun n d => Returns (mkTool n d);
     CustomerManager_new := fun _ => Returns (Demo.manager (Returns 2));
     SQLDatabase_from_uri := fun _ => Returns tt;
     ChatOpenAI_sql := Demo.gpt;
     build_sql_chain := Returns (Demo.chain (Returns "There are 3503 tracks."));
     DuckDuckGo_run := fun _ => Returns "results";
     format_credit := pretty;
     py_strip := fun s => s;
     utcnow_isoformat := "2025-01-01T00:00:00";
     response_time_ms := 12 |}.

(** a model that asks for one CRM lookup and then answers *)
Definition lookup : ToolCall :=
  mkToolCall "get_business_client_by_id" "{'client_id': 7}" "call_7".

Definition model (running : list Message) (registry : list Tool)
  : result Dispatcher.ModelReply :=
  match last running with
  | Some (ToolMessage _ _) =>
      Returns (Dispatcher.FinalAnswer "The CRM database cannot be reached right now.")
  | _ => Returns (Dispatcher.ToolCallRequest "" [lookup])
  end.

Definition arguments (text : string) : gmap string Any :=
  <["client_id" := AInt 7]> ∅.

Definition library_tool (name : string) (args : gmap string Any) : result string :=
  Raises (Exception "HTTPSConnectionPool: Max retries exceeded").
End Demo2.

(** ** Further vocabulary *)



(** the exception that formatting the customers raises: that of the first
    customer, in the order of the list, whose credit is NULL or, with a
    credit, whose status is NULL *)
Fixpoint first_null_column (customers : list Customer) : option exn :=
  match customers with
  | [] => None
  | c :: rest =>
      match credit c, active_status c with
      | None, _ =>
          Some (Exception "unsupported format string passed to NoneType.__format__")
      | Some _, None =>
          Some (Exception "'NoneType' object has no attribute 'value'")
      | Some _, Some _ => first_null_column rest
      end
  end.

(** does the character occur in the string? *)
Fixpoint has_char (c : Ascii.ascii) (s : string) : bool :=
  match s with
  | EmptyString => false
  | String x rest => if decide (x = c) then true else has_char c rest
  end.

(** the content of the last AIMessage, if there is one *)
Fixpoint last_ai (messages : list Message) : option string :=
  match messages with
  | [] => None
  | m :: rest =>
      match last_ai rest with
      | Some c => Some c
      | None => match m with AIMessage c _ => Some c | _ => None end
      end
  end.

Definition not_system (msg : ConversationMessage.t) : bool :=
  match ConversationMessage.role msg with SYSTEM => false | _ => true end.


(** * Properties *)

Ltac py_unfold :=
  unfold Py.bind, Py.try_except, Py.ret, Py.raise, Py.gets, Py.get,
         Py.modify, Py.call in *.

(** case analysis on the next outcome an external call or a test hands to
    the code *)
Ltac py_case :=
  match goal with
  | |- context [match ?x with Returns _ => _ | Raises _ => _ end] =>
      destruct x eqn:?
  | |- context [match ?x with Some _ => _ | None => _ end] => destruct x eqn:?
  | |- context [match ?x with [] => _ | _ :: _ => _ end] => destruct x eqn:?
  | |- context [if ?b then _ else _] => destruct b eqn:?
  end.

Ltac py_run := py_unfold; simpl; repeat (py_case; simpl).

(** ** A handler that returns makes the whole [try] return *)

Lemma try_except_returns {S A} (body : Py.M S A) (h : exn -> A) (s : S) :
  exists a s', Py.try_except body (fun e => Py.ret (h e)) s = (Returns a, s').
Proof.
  unfold Py.try_except, Py.ret.
  destruct (body s) as [[a | e] s']; eauto.
Qed.

(** ** The vector-store service never raises and touches only itself *)

Lemma same_but_faiss_refl g : same_but_faiss g g.
Proof. repeat split. Qed.

Lemma same_but_faiss_trans g1 g2 g3 :
  same_but_faiss g1 g2 -> same_but_faiss g2 g3 -> same_but_faiss g1 g3.
Proof.
  unfold same_but_faiss. intros (?&?&?&?&?) (?&?&?&?&?).
  repeat split; congruence.
Qed.

Ltac faiss_frame :=
  repeat split; simpl; try reflexivity.

Lemma faiss_initialize_safe W g :
  exists b g', FAISS.initialize W g = (Returns b, g') /\ same_but_faiss g g'.
Proof.
  unfold FAISS.initialize. py_run;
    eexists _, _; (split; [reflexivity | faiss_frame]).
Qed.

Lemma faiss_load_from_disk_safe W g :
  exists b g', FAISS.load_from_disk W g = (Returns b, g') /\ same_but_faiss g g'.
Proof.
  unfold FAISS.load_from_disk. py_run;
    eexists _, _; (split; [reflexivity | faiss_frame]).
Qed.

Lemma get_retriever_tool_safe W g :
  exists g', FAISS.get_retriever_tool W g
             = (Returns (retriever_tool (faiss_service g')), g')
             /\ same_but_faiss g g'.
Proof.
  unfold FAISS.get_retriever_tool.
  unfold Py.bind at 1. unfold Py.gets at 1.
  destruct (retriever_tool (faiss_service g)) eqn:Hrt.
  - py_unfold. simpl. eexists. split; [reflexivity | apply same_but_faiss_refl].
  - destruct (faiss_cache_enabled W).
    + destruct (faiss_load_from_disk_safe W g) as (b & g1 & H1 & F1).
      destruct b.
      * py_unfold. rewrite H1. simpl.
        eexists. split; [reflexivity | exact F1].
      * destruct (faiss_initialize_safe W g1) as (b2 & g2 & H2 & F2).
        py_unfold. rewrite H1. simpl. rewrite H2. simpl.
        eexists. split; [reflexivity | eapply same_but_faiss_trans; eauto].
    + destruct (faiss_initialize_safe W g) as (b2 & g2 & H2 & F2).
      py_unfold. rewrite H2. simpl.
      eexists. split; [reflexivity | exact F2].
Qed.

(** ** Service initialisation *)

Lemma initialize_when_ready W g ex :
  agent_executor (agent_service g) = Some ex ->
  Agent.initialize W g = (Returns true, g).
Proof.
  intros H. unfold Agent.initialize. py_unfold. now rewrite H.
Qed.

(** the body of [initialize] after the search tools were built *)
Lemma initialize_success_ready W g g1 :
  Agent.initialize W g = (Returns true, g1) ->
  is_Some (agent_executor (agent_service g1)).
Proof.
  unfold Agent.initialize.
  unfold Py.bind at 1. unfold Py.gets at 1.
  destruct (agent_executor (agent_service g)) eqn:Hex.
  - unfold Py.ret. intros [= <-]. rewrite Hex. eauto.
  - unfold Py.try_except.
    match goal with
    | |- (match ?body g with _ => _ end) = _ -> _ => destruct (body g) as [[b | e] g2] eqn:Hb
    end.
    2: { unfold Py.ret. discriminate. }
    intros [= -> ->]. revert Hb.
    py_unfold. simpl.
    destruct (ChatOpenAI_agent W); [| discriminate]. simpl.
    unfold SearchTools.get_all_search_tools, SearchTools.get_arxiv_tool,
      SearchTools.get_wikipedia_tool, SearchTools.get_duckduckgo_tool,
      CrmTools.get_all_crm_tools, SqlTools.get_sql_tool.
    py_unfold. simpl.
    destruct (ArxivQueryRun W); simpl; [| discriminate].
    destruct (WikipediaQueryRun W); simpl; [| discriminate].
    match goal with
    | |- context [FAISS.get_retriever_tool W ?g0] =>
        destruct (get_retriever_tool_safe W g0) as (g3 & -> & F)
    end.
    simpl.
    destruct (retriever_tool (faiss_service g3));
      match goal with
      | |- context [create_react_agent W ?l ?ts] =>
          destruct (create_react_agent W l ts); simpl; [| discriminate]
      end;
      intros [= <-]; simpl; eauto.
Qed.

Ltac unfold_tool_sources :=
  unfold SearchTools.get_all_search_tools, SearchTools.get_arxiv_tool,
    SearchTools.get_wikipedia_tool, SearchTools.get_duckduckgo_tool,
    CrmTools.get_all_crm_tools, SqlTools.get_sql_tool.

(** C7: initialisation is idempotent.  When the agent service is ready,
    [initialize()] returns [True] and leaves every singleton, hence the
    list of registered tools, as it was; and a call of [initialize()] that
    succeeded is followed by a call that succeeds without changing
    anything. *)
Theorem initialize_idempotent (W : World) (g : Globals) :
  (Agent.is_ready g = (Returns true, g) ->
   Agent.initialize W g = (Returns true, g) /\
   tools (agent_service (snd (Agent.initialize W g))) = tools (agent_service g)) /\
  (forall g1, Agent.initialize W g = (Returns true, g1) ->
              Agent.initialize W g1 = (Returns true, g1)).
Proof.
  split.
  - unfold Agent.is_ready, Py.gets. intros [= H].
    apply bool_decide_eq_true in H. destruct H as [ex Hex].
    rewrite (initialize_when_ready W g ex Hex). auto.
  - intros g1 H. apply initialize_success_ready in H as [ex Hex].
    eapply initialize_when_ready; eauto.
Qed.

Lemma initialize_idempotent_witness :
  let W := Demo.all_up in
  let g := snd (Agent.initialize W (fresh_globals W)) in
  Agent.is_ready g = (Returns true, g) /\
  Agent.initialize W g = (Returns true, g) /\
  length (tools (agent_service g)) = 10%nat.
Proof.
  intros W g.
  assert (Hr : Agent.is_ready g = (Returns true, g)) by (vm_compute; reflexivity).
  split; [exact Hr |].
  split; [exact (proj1 (proj1 (initialize_idempotent W g) Hr)) |].
  vm_compute; reflexivity.
Defined.

(** C6, as the code has it: only the document retriever is optional.  From
    a service that is not initialised, when the LLM client is constructed,
    (a) if the two search wrappers and the executor can be constructed,
    [initialize()] succeeds and registers the three search tools, the five
    CRM tools and the SQL tool, followed by the retriever tool exactly when
    the vector-store service could provide one (nine tools without it);
    (b) if a search wrapper cannot be constructed, [initialize()] returns
    [False], the service is not ready and its tool list is unchanged. *)
Theorem registry_population (W : World) (g : Globals) (l : LLM) :
  agent_executor (agent_service g) = None ->
  ChatOpenAI_agent W = Returns l ->
  (ArxivQueryRun W = Returns tt ->
   WikipediaQueryRun W = Returns tt ->
   (forall ts, exists ex, create_react_agent W l ts = Returns ex) ->
   exists g1,
     Agent.initialize W g = (Returns true, g1) /\
     is_Some (agent_executor (agent_service g1)) /\
     tools (agent_service g1)
     = (base_tools ++ option_list (retriever_tool (faiss_service g1)))%list /\
     (retriever_tool (faiss_service g1) = None ->
      length (tools (agent_service g1)) = 9%nat)) /\
  (forall e,
     ArxivQueryRun W = Raises e \/ WikipediaQueryRun W = Raises e ->
     exists g1,
       Agent.initialize W g = (Returns false, g1) /\
       agent_executor (agent_service g1) = None /\
       tools (agent_service g1) = tools (agent_service g)).
Proof.
  intros Hnone Hllm. split.
  - intros Ha Hw Hc.
    unfold Agent.initialize.
    unfold Py.bind at 1. unfold Py.gets at 1. rewrite Hnone.
    unfold_tool_sources. py_unfold. simpl. rewrite Hllm. simpl.
    rewrite Ha. simpl. rewrite Hw. simpl.
    match goal with
    | |- context [FAISS.get_retriever_tool W ?g0] =>
        destruct (get_retriever_tool_safe W g0) as (g3 & -> & F)
    end.
    simpl.
    destruct (retriever_tool (faiss_service g3)) as [t |] eqn:Hrt;
      match goal with
      | |- context [create_react_agent W l ?ts] =>
          destruct (Hc ts) as [ex ->]
      end; simpl;
      (eexists; split; [reflexivity |]); simpl; rewrite Hrt;
      (split; [eauto |]); (split; [reflexivity |]).
    + discriminate.
    + reflexivity.
  - intros e He.
    unfold Agent.initialize.
    unfold Py.bind at 1. unfold Py.gets at 1. rewrite Hnone.
    unfold_tool_sources. py_unfold. simpl. rewrite Hllm. simpl.
    destruct He as [He | He].
    + rewrite He. simpl. eexists. split; [reflexivity |]. simpl. auto.
    + destruct (ArxivQueryRun W); simpl; rewrite ?He; simpl;
        (eexists; split; [reflexivity |]); simpl; auto.
Qed.

Lemma registry_population_witness :
  let W := Demo.no_retriever in
  exists g1,
    Agent.initialize W (fresh_globals W) = (Returns true, g1) /\
    is_Some (agent_executor (agent_service g1)) /\
    length (tools (agent_service g1)) = 9%nat.
Proof.
  intros W.
  destruct (proj1 (registry_population W (fresh_globals W) (mkLLM "gpt-4o-mini")
                     eq_refl eq_refl) eq_refl eq_refl
                  (fun ts => ex_intro _ (mkExecutor (mkLLM "gpt-4o-mini") ts) eq_refl))
    as (g1 & Hi & Hr & Ht & H9).
  exists g1. split; [exact Hi |]. split; [exact Hr |].
  apply H9.
  assert (Hg : g1 = snd (Agent.initialize W (fresh_globals W))) by (rewrite Hi; reflexivity).
  rewrite Hg. vm_compute. reflexivity.
Defined.

(** C6 as stated fails: the search tools are one of the four sources, and
    when one of them (here the ArXiv wrapper) cannot be constructed, though
    the CRM tools, the SQL tool and the retriever are all available,
    initialisation does not continue with them: [initialize()] returns
    [False], no tool is registered and the agent is not ready. *)
Lemma search_source_failure_aborts_initialization :
  let W := Demo.no_arxiv in
  let '(r, g1) := Agent.initialize W (fresh_globals W) in
  r = Returns false /\
  tools (agent_service g1) = [] /\
  agent_executor (agent_service g1) = None /\
  fst (FAISS.get_retriever_tool W (fresh_globals W))
  = Returns (Some (mkTool "langsmith_search" "Search for information about LangSmith.")).
Proof. vm_compute. repeat split. Qed.

(** ** Tools *)








(** ** Health *)

(** what the handler reports, component by component *)
Lemma health_report W db g :
  exists body,
    Routes.health W db g = (Returns body, g) /\
    HealthResponse.status body
    = match get_customer_count db with
      | Raises _ => UNHEALTHY
      | Returns _ =>
          if agent_executor (agent_service g) is Some _ then HEALTHY else DEGRADED
      end /\
    component_status body "agent"
    = Some (if agent_executor (agent_service g) is Some _ then HEALTHY else UNHEALTHY) /\
    component_status body "faiss"
    = Some (if retriever_tool (faiss_service g) is Some _ then HEALTHY else DEGRADED) /\
    HealthResponse.components body !! "database"
    = Some match get_customer_count db with
           | Returns n =>
               ComponentHealth.mk HEALTHY (Some "Database accessible")
                 (Some (<["crm_customers" := AInt n]>
                       (<["database_path" := AStr (crm_database_full_path W)]> ∅)))
           | Raises e =>
               ComponentHealth.mk UNHEALTHY (Some ("Database error: " ++ str e)) None
           end.
Proof.
  unfold Routes.health, Agent.is_ready, Agent.get_info, FAISS.is_ready,
    FAISS.get_info, Agent.is_ready, component_status.
  py_unfold.
  destruct (agent_executor (agent_service g)) as [ex |] eqn:Hex;
    destruct (retriever_tool (faiss_service g)) as [t |] eqn:Hrt;
    destruct (get_customer_count db) as [n | e] eqn:Hdb;
    cbn; rewrite ?Hex, ?Hrt, ?Hdb; cbn;
    (eexists; split; [reflexivity |]); cbn;
    repeat split; by simplify_map_eq.
Qed.

Lemma initialize_never_raises W g :
  exists b g1, Agent.initialize W g = (Returns b, g1).
Proof.
  unfold Agent.initialize.
  unfold Py.bind at 1. unfold Py.gets at 1.
  destruct (agent_executor (agent_service g)).
  - unfold Py.ret. eauto.
  - apply try_except_returns.
Qed.

(** the agent dependency: it resolves to a ready service, or answers 503 *)
Lemma get_agent_service_cases W g :
  (exists g1, Dependencies.get_agent_service W g = (Returns tt, g1) /\
              is_Some (agent_executor (agent_service g1)) /\
              (is_Some (agent_executor (agent_service g)) \/
               Agent.initialize W g = (Returns true, g1))) \/
  (exists g1, Dependencies.get_agent_service W g
              = (Raises (HTTPException 503 "Agent service initialization failed"), g1) /\
              agent_executor (agent_service g) = None /\
              Agent.initialize W g = (Returns false, g1)).
Proof.
  destruct (agent_executor (agent_service g)) as [ex |] eqn:Hex.
  - left. exists g. split; [| rewrite Hex; eauto].
    unfold Dependencies.get_agent_service, Agent.is_ready. py_unfold.
    rewrite Hex. reflexivity.
  - destruct (initialize_never_raises W g) as (b & g1 & Hi).
    assert (Hdep : Dependencies.get_agent_service W g
                   = if b then (Returns tt, g1)
                     else (Raises (HTTPException 503
                                     "Agent service initialization failed"), g1)).
    { unfold Dependencies.get_agent_service, Agent.is_ready. py_unfold.
      rewrite Hex. with_strategy opaque [Agent.initialize] cbn.
      rewrite Hi. destruct b; reflexivity. }
    destruct b.
    + left. exists g1. split; [exact Hdep |].
      split; [eapply initialize_success_ready; eauto | auto].
    + right. exists g1. auto.
Qed.

Lemma get_faiss_service_safe W g :
  exists g', Dependencies.get_faiss_service W g = (Returns tt, g') /\
             same_but_faiss g g'.
Proof.
  unfold Dependencies.get_faiss_service, FAISS.is_ready.
  unfold Py.bind at 1. unfold Py.gets at 1.
  destruct (bool_decide _); with_strategy opaque [FAISS.initialize] cbn.
  - exists g. unfold Py.ret. split; [reflexivity | apply same_but_faiss_refl].
  - destruct (faiss_initialize_safe W g) as (b & g1 & Hi & F).
    py_unfold. rewrite Hi. eauto.
Qed.

(** [GET /health], case by case *)
Lemma get_health_cases W g :
  (exists g1,
     Dependencies.get_agent_service W g
     = (Raises (HTTPException 503 "Agent service initialization failed"), g1) /\
     Routes.get_health W g = (Failure 503 "Agent service initialization failed", g1)) \/
  (exists g1 g2,
     Dependencies.get_agent_service W g = (Returns tt, g1) /\
     is_Some (agent_executor (agent_service g2)) /\
     match CustomerManager_new W ("sqlite:///" ++ crm_database_full_path W) with
     | Raises e => Routes.get_health W g = (Middleware.respond (Raises e), g2)
     | Returns db =>
         exists body, Routes.health W db g2 = (Returns body, g2) /\
                      Routes.get_health W g = (Success body, g2)
     end).
Proof.
  destruct (get_agent_service_cases W g) as [(g1 & Ha & Hr & _) | (g1 & Ha & _ & _)].
  - right. destruct (get_faiss_service_safe W g1) as (g2 & Hf & F).
    exists g1, g2. split; [exact Ha |].
    split; [destruct F as (-> & _); exact Hr |].
    assert (Hg : Routes.get_health W g
                 = match CustomerManager_new W
                           ("sqlite:///" ++ crm_database_full_path W) with
                   | Returns db =>
                       let '(r, g') := Routes.health W db g2 in
                       (Middleware.respond r, g')
                   | Raises e => (Middleware.respond (Raises e), g2)
                   end).
    { unfold Routes.get_health, Dependencies.get_customer_manager.
      py_unfold. rewrite Ha, Hf.
      destruct (CustomerManager_new W _); reflexivity. }
    rewrite Hg.
    destruct (CustomerManager_new W _) as [db | e].
    + destruct (health_report W db g2) as (body & Hh & _).
      exists body. rewrite Hh. auto.
    + reflexivity.
  - left. exists g1. split; [exact Ha |].
    unfold Routes.get_health. py_unfold. rewrite Ha. reflexivity.
Qed.

(** C2: a failing database check makes the overall status unhealthy.  When
    [get_customer_count()] raises, the handler returns a response whose
    overall status is 'unhealthy' and whose database component is
    'unhealthy' with the error text, whatever the states of the agent and
    of the vector store; so does every 200 response of [GET /health]. *)
Theorem database_failure_is_unhealthy (W : World) (g : Globals)
    (customer_db : CustomerManager) (e : exn) :
  get_customer_count customer_db = Raises e ->
  (exists body,
     Routes.health W customer_db g = (Returns body, g) /\
     HealthResponse.status body = UNHEALTHY /\
     HealthResponse.components body !! "database"
     = Some (ComponentHealth.mk UNHEALTHY (Some ("Database error: " ++ str e)) None)) /\
  (CustomerManager_new W ("sqlite:///" ++ crm_database_full_path W) = Returns customer_db ->
   forall body, fst (Routes.get_health W g) = Success body ->
                HealthResponse.status body = UNHEALTHY /\
                HealthResponse.status body <> HEALTHY).
Proof.
  intros He. split.
  - destruct (health_report W customer_db g) as (body & Hh & Hs & _ & _ & Hd).
    rewrite He in Hs, Hd. eauto.
  - intros Hnew body Hb.
    destruct (get_health_cases W g) as [(g1 & _ & Hg) | (g1 & g2 & _ & _ & Hg)].
    + rewrite Hg in Hb. discriminate.
    + rewrite Hnew in Hg. destruct Hg as (body' & Hh & Hg).
      rewrite Hg in Hb. injection Hb as <-.
      destruct (health_report W customer_db g2) as (body2 & Hh2 & Hs & _).
      rewrite Hh in Hh2. injection Hh2 as <-.
      rewrite He in Hs. rewrite Hs. split; [reflexivity | discriminate].
Qed.

Lemma database_failure_is_unhealthy_witness :
  exists body,
    fst (Routes.get_health Demo.no_database (fresh_globals Demo.no_database))
    = Success body /\
    HealthResponse.status body = UNHEALTHY.
Proof.
  eexists. split; [vm_compute; reflexivity |].
  refine (proj1 (proj2 (database_failure_is_unhealthy Demo.no_database
                          (fresh_globals Demo.no_database) Demo.broken_manager
                          (Exception "unable to open database file") eq_refl)
                   eq_refl _ _)).
  vm_compute; reflexivity.
Defined.

(** C3 as stated fails: with the vector store unavailable (no URL is
    configured, so no retriever tool can be built) and the agent and the
    database healthy, [GET /health] reports the faiss component 'degraded'
    and the two others 'healthy', but its overall status is 'healthy', not
    'degraded'. *)
Lemma retriever_down_overall_healthy :
  exists body,
    fst (Routes.get_health Demo.no_retriever (fresh_globals Demo.no_retriever))
    = Success body /\
    component_status body "agent" = Some HEALTHY /\
    component_status body "faiss" = Some DEGRADED /\
    component_status body "database" = Some HEALTHY /\
    HealthResponse.status body = HEALTHY /\
    HealthResponse.status body <> DEGRADED.
Proof.
  eexists. split; [vm_compute; reflexivity |].
  repeat split; try (vm_compute; reflexivity). discriminate.
Qed.

(** C3, as the code has it: the vector store does not enter the overall
    status.  When the retriever tool is unavailable, the agent is ready and
    the database check succeeds, the response has the faiss component
    'degraded', the agent and database components 'healthy', and the
    overall status 'healthy'. *)
Theorem retriever_down_report (W : World) (g : Globals)
    (customer_db : CustomerManager) (n : Z) :
  retriever_tool (faiss_service g) = None ->
  is_Some (agent_executor (agent_service g)) ->
  get_customer_count customer_db = Returns n ->
  exists body,
    Routes.health W customer_db g = (Returns body, g) /\
    HealthResponse.status body = HEALTHY /\
    component_status body "faiss" = Some DEGRADED /\
    component_status body "agent" = Some HEALTHY /\
    component_status body "database" = Some HEALTHY.
Proof.
  intros Hrt [ex Hex] Hdb.
  destruct (health_report W customer_db g) as (body & Hh & Hs & Ha & Hf & Hd).
  rewrite Hex, Hdb in Hs. rewrite Hex in Ha. rewrite Hrt in Hf.
  exists body. repeat split; try assumption.
  unfold component_status. rewrite Hd, Hdb. reflexivity.
Qed.

Lemma retriever_down_report_witness :
  exists body,
    Routes.health Demo.no_retriever (Demo.manager (Returns 2))
      (snd (Agent.initialize Demo.no_retriever (fresh_globals Demo.no_retriever)))
    = (Returns body,
       snd (Agent.initialize Demo.no_retriever (fresh_globals Demo.no_retriever))) /\
    HealthResponse.status body = HEALTHY /\
    component_status body "faiss" = Some DEGRADED.
Proof.
  destruct (retriever_down_report Demo.no_retriever
              (snd (Agent.initialize Demo.no_retriever (fresh_globals Demo.no_retriever)))
              (Demo.manager (Returns 2)) 2)
    as (body & Hh & Hs & Hf & _).
  - vm_compute; reflexivity.
  - vm_compute; eauto.
  - reflexivity.
  - exists body. auto.
Defined.

(** C5 as stated fails: when the agent service is not initialised and
    cannot be initialised (here the LLM client cannot be constructed),
    [GET /health] is answered 503 by the agent dependency. *)
Lemma health_503_when_agent_cannot_initialize :
  fst (Routes.get_health Demo.no_llm (fresh_globals Demo.no_llm))
  = Failure 503 "Agent service initialization failed" /\
  status_code_of (fst (Routes.get_health Demo.no_llm (fresh_globals Demo.no_llm)))
  = 503.
Proof. vm_compute. split; reflexivity. Qed.

(** C5, as the code has it: [GET /health] answers 200, with the health in
    the body, whenever the agent service is ready or initialises on demand
    (and the CRM manager can be constructed); when the agent service is not
    ready and its initialisation fails, the answer is 503. *)
Theorem health_status_code (W : World) (g : Globals) :
  (forall customer_db,
     CustomerManager_new W ("sqlite:///" ++ crm_database_full_path W)
     = Returns customer_db ->
     is_Some (agent_executor (agent_service g)) \/
     fst (Agent.initialize W g) = Returns true ->
     exists body,
       fst (Routes.get_health W g) = Success body /\
       status_code_of (fst (Routes.get_health W g)) = 200) /\
  (agent_executor (agent_service g) = None ->
   fst (Agent.initialize W g) = Returns false ->
   status_code_of (fst (Routes.get_health W g)) = 503).
Proof.
  split.
  - intros db Hnew Hready.
    destruct (get_health_cases W g) as [(g1 & Ha & Hg) | (g1 & g2 & _ & _ & Hg)].
    + exfalso.
      destruct (get_agent_service_cases W g)
        as [(g1' & Ha' & _) | (g1' & _ & Hnone & Hi)].
      * rewrite Ha in Ha'. discriminate.
      * destruct Hready as [[ex Hex] | Ht].
        -- rewrite Hex in Hnone. discriminate.
        -- rewrite Hi in Ht. discriminate.
    + rewrite Hnew in Hg. destruct Hg as (body & _ & Hg).
      exists body. rewrite Hg. auto.
  - intros Hnone Hi.
    destruct (get_health_cases W g) as [(g1 & Ha & Hg) | (g1 & g2 & Ha & _)].
    + rewrite Hg. reflexivity.
    + exfalso.
      destruct (get_agent_service_cases W g)
        as [(g1' & _ & _ & [[ex Hex] | Ht]) | (g1' & Ha' & _)].
      * rewrite Hex in Hnone. discriminate.
      * rewrite Ht in Hi. discriminate.
      * rewrite Ha in Ha'. discriminate.
Qed.

Lemma health_status_code_witness :
  status_code_of (fst (Routes.get_health Demo.all_up (fresh_globals Demo.all_up))) = 200 /\
  status_code_of (fst (Routes.get_health Demo.no_llm (fresh_globals Demo.no_llm))) = 503.
Proof.
  split.
  - destruct (proj1 (health_status_code Demo.all_up (fresh_globals Demo.all_up))
                (Demo.manager (Returns 2)) eq_refl)
      as (body & _ & Hc).
    + right. vm_compute; reflexivity.
    + exact Hc.
  - apply (proj2 (health_status_code Demo.no_llm (fresh_globals Demo.no_llm))).
    + reflexivity.
    + vm_compute; reflexivity.
Defined.

(** ** Streaming *)


Lemma for_list_yield {X Y} (f : X -> Y) (xs : list X) g :
  Gen.for_list xs (fun x => Gen.yield (f x)) g = (Returns tt, map f xs, g).
Proof.
  induction xs as [| x rest IH]; simpl.
  - reflexivity.
  - unfold Gen.bind.
    change (Gen.yield (f x) g) with (@Returns unit tt, [f x], g).
    cbv beta iota. rewrite IH. reflexivity.
Qed.

Lemma for_in_yield {X Y} (f : X -> Y) (gen : Gen.G X unit) g r xs g1 :
  gen g = (r, xs, g1) ->
  Gen.for_in gen (fun x => Gen.yield (f x)) g = (r, map f xs, g1).
Proof.
  intros H. unfold Gen.for_in. rewrite H, for_list_yield.
  destruct r as [[] | e]; reflexivity.
Qed.


(** the whole run of the generator, from the run of [agent.stream] *)
Lemma event_generator_run W request g r chunks g1 :
  Agent.stream W (ChatRequest.message request) (Routes.history_dicts request) g
  = (r, chunks, g1) ->
  Routes.event_generator W request g
  = (Returns tt,
     (Routes.start_event :: map forward chunks ++
      [match r with
       | Returns _ => Routes.end_event
       | Raises e => Routes.error_event e
       end])%list,
     g1).
Proof.
  intros H.
  pose proof (for_in_yield forward _ g r chunks g1 H) as Hloop.
  unfold forward in Hloop.
  unfold Routes.event_generator, Gen.try_except, Gen.bind. cbv zeta.
  change (Gen.yield Routes.start_event g)
    with (@Returns unit tt, [Routes.start_event], g).
  cbv beta iota. rewrite Hloop.
  destruct r as [[] | e]; reflexivity.
Qed.




(** C10: the event type of a forwarded chunk is determined by its
    top-level keys only.  The chunks of the agent's stream have the format
    [{"agent": ...}] or [{"tools": ...}], one key or the other; on such a
    chunk, and on a chunk with neither key, the tagging is: a chunk with an
    'agent' key is tagged 'agent', a chunk with a 'tools' key is tagged
    'tool', a chunk with neither key is tagged 'agent'.  Two chunks with
    the same keys get the same tag, and every chunk of the agent's stream
    is forwarded, in order, with the chunk as its data: none is rejected
    or skipped. *)
Theorem event_type_by_keys (chunk : gmap string Any) :
  ~ (is_Some (chunk !! "agent") /\ is_Some (chunk !! "tools")) ->
  (is_Some (chunk !! "agent") -> Routes.event_type_of chunk = AGENT) /\
  (is_Some (chunk !! "tools") -> Routes.event_type_of chunk = TOOL) /\
  (chunk !! "agent" = None -> chunk !! "tools" = None ->
   Routes.event_type_of chunk = AGENT) /\
  (forall other : gmap string Any,
     dom other = dom chunk ->
     Routes.event_type_of other = Routes.event_type_of chunk) /\
  (forall W request g,
     let '(r, chunks, _) :=
       Agent.stream W (ChatRequest.message request) (Routes.history_dicts request) g in
     exists terminal,
       snd (fst (Routes.event_generator W request g))
       = (Routes.start_event ::
          map (fun c => StreamEvent.mk (Routes.event_type_of c) c) chunks ++
          [terminal])%list).
Proof.
  intros Hformat. unfold Routes.event_type_of. repeat split.
  - intros Ha. case_decide; [reflexivity | contradiction].
  - intros Ht. case_decide as H1.
    + exfalso. apply Hformat. auto.
    + case_decide; [reflexivity | contradiction].
  - intros Ha Ht. rewrite Ha, Ht.
    repeat case_decide; reflexivity.
  - intros other Hdom.
    assert (Hk : forall k, is_Some (other !! k) <-> is_Some (chunk !! k)).
    { intros k. rewrite <- !elem_of_dom, Hdom. reflexivity. }
    repeat case_decide; try reflexivity;
      repeat match goal with
             | H : is_Some (other !! _) |- _ => apply Hk in H
             | H : ~ is_Some (other !! _) |- _ => rewrite Hk in H
             end; contradiction.
  - intros W request g.
    destruct (Agent.stream W _ _ g) as [[r chunks] g1] eqn:Hs.
    eexists. rewrite (event_generator_run W request g r chunks g1 Hs).
    reflexivity.
Qed.

Lemma event_type_by_keys_witness :
  Routes.event_type_of Demo.agent_chunk = AGENT /\
  Routes.event_type_of Demo.tools_chunk = TOOL /\
  Routes.event_type_of (∅ : gmap string Any) = AGENT.
Proof.
  split; [| split].
  - apply (proj1 (event_type_by_keys Demo.agent_chunk
                    ltac:(intros [_ [x Hx]]; vm_compute in Hx; discriminate))).
    vm_compute; eauto.
  - apply (proj1 (proj2 (event_type_by_keys Demo.tools_chunk
                    ltac:(intros [[x Hx] _]; vm_compute in Hx; discriminate)))).
    vm_compute; eauto.
  - apply (proj1 (proj2 (proj2 (event_type_by_keys ∅
                    ltac:(intros [[x Hx] _]; vm_compute in Hx; discriminate)))));
      reflexivity.
Defined.

(** ** Conversation conversion *)

Lemma history_messages_converted (h : list ConversationMessage.t) :
  Agent.history_messages (map entry_dict h) = flat_map converted h.
Proof.
  induction h as [| msg rest IH]; simpl.
  - reflexivity.
  - rewrite IH. f_equal.
    unfold entry_dict, converted.
    destruct msg as [[] c]; simpl;
      rewrite lookup_insert_eq; repeat case_decide; try congruence;
      (rewrite lookup_insert_ne by discriminate);
      rewrite lookup_insert_eq; reflexivity.
Qed.

Lemma build_messages_converted sm message request :
  Agent.build_messages sm message (Routes.history_dicts request)
  = (system_prefix sm
     ++ flat_map converted (default [] (ChatRequest.conversation_history request))
     ++ [HumanMessage message])%list.
Proof.
  unfold Agent.build_messages, Routes.history_dicts, system_prefix.
  f_equal. f_equal.
  destruct (ChatRequest.conversation_history request) as [[| msg rest] |]; simpl;
    try reflexivity.
  change (map _ rest) with (map entry_dict rest).
  rewrite history_messages_converted.
  pose proof (history_messages_converted [msg]) as H1. simpl in H1.
  rewrite !app_nil_r in H1.
  change (<["role":=_]> _) with (entry_dict msg).
  destruct (decide (entry_dict msg !! "role" = Some "user"));
    [| destruct (decide (entry_dict msg !! "role" = Some "assistant"))];
    rewrite <- H1; reflexivity.
Qed.

(** *** Validation *)

Lemma both_errors {A B C} (f : A -> B -> C) a b x :
  x ∈ errors_of a \/ x ∈ errors_of b ->
  exists es, Models.both f a b = inl es /\ x ∈ es.
Proof.
  destruct a as [e1 | a], b as [e2 | b]; simpl; intros [H | H];
    try (apply elem_of_nil in H; contradiction);
    eexists; (split; [reflexivity |]);
    rewrite ?elem_of_app; auto.
Qed.

Lemma validate_role_rejects loc s :
  bad_role s ->
  Models.validate_role loc (Some (AStr s))
  = inl [ValidationError.mk loc "Input should be 'user', 'assistant' or 'system'" "enum"].
Proof.
  intros (H1 & H2 & H3). unfold Models.validate_role, MessageRole_of_value.
  repeat case_decide; try contradiction. reflexivity.
Qed.

Lemma validate_history_rejects loc (h : list (gmap string Any)) :
  forall k i e s,
    h !! i = Some e ->
    e !! "role" = Some (AStr s) ->
    bad_role s ->
    exists es,
      Models.validate_history loc k h = inl es /\
      ValidationError.mk (loc ++ [pretty (k + i)%nat; "role"])%list
        "Input should be 'user', 'assistant' or 'system'" "enum" ∈ es.
Proof.
  induction h as [| e0 rest IH]; intros k i e s Hi Hr Hbad.
  - discriminate.
  - simpl. apply both_errors.
    destruct i as [| i]; simpl in Hi.
    + injection Hi as ->. left.
      unfold Models.validate_entry.
      edestruct (both_errors ConversationMessage.mk
                   (Models.validate_role ((loc ++ [pretty k]) ++ ["role"]) (e !! "role"))
                   (Models.validate_str ((loc ++ [pretty k]) ++ ["content"]) (e !! "content")))
        as (es & -> & Hin).
      * left. rewrite Hr, (validate_role_rejects _ s Hbad). simpl.
        apply list_elem_of_singleton. reflexivity.
      * rewrite <- app_assoc in Hin. simpl in Hin.
        rewrite Nat.add_0_r. exact Hin.
    + right.
      destruct (IH (S k) i e s Hi Hr Hbad) as (es & -> & Hin).
      rewrite Nat.add_succ_r. exact Hin.
Qed.

(** C8 as stated fails for the role 'system': an entry with that role
    passes validation and is then left out of the internal messages: it
    is mapped to no message at all. *)
Lemma system_entry_is_accepted_and_dropped :
  Models.validate_chat_request
    (RawChatRequest.mk (Some (AStr "Hi"))
       (Some [<["role" := AStr "system"]> (<["content" := AStr "Be terse."]> ∅)]))
  = inr (ChatRequest.mk "Hi" (Some [ConversationMessage.mk SYSTEM "Be terse."])) /\
  Agent.build_messages None "Hi"
    (Routes.history_dicts
       (ChatRequest.mk "Hi" (Some [ConversationMessage.mk SYSTEM "Be terse."])))
  = [HumanMessage "Hi"].
Proof. split; vm_compute; reflexivity. Qed.

(** C8, as the code has it.  The internal message list is the configured
    system message (if any), then the history converted entry by entry, in
    order, then the new user message, where an entry with role 'user'
    becomes a HumanMessage and one with role 'assistant' an AIMessage with
    the same content, and an entry with role 'system' is accepted and left
    out.  A body whose conversation_history has, at index [i], an entry
    whose role is a string outside {user, assistant, system} fails
    validation with an error located at body, conversation_history, [i],
    role, which the validation handler answers with status 422 and the
    field "body -> conversation_history -> i -> role". *)
Theorem history_conversion (sm : option string) (message : string)
    (request : ChatRequest.t) (body : RawChatRequest.t) :
  Agent.build_messages sm message (Routes.history_dicts request)
  = (system_prefix sm
     ++ flat_map converted (default [] (ChatRequest.conversation_history request))
     ++ [HumanMessage message])%list /\
  (forall h i e s,
     RawChatRequest.conversation_history body = Some h ->
     h !! i = Some e ->
     e !! "role" = Some (AStr s) ->
     bad_role s ->
     exists es err,
       Models.validate_chat_request body = inl es /\
       err ∈ es /\
       ValidationError.loc err = ["body"; "conversation_history"; pretty i; "role"] /\
       exists items item,
         @Middleware.validation_exception_handler ChatResponse.t es
         = Invalid 422 items /\
         item ∈ items /\
         item !! "field"
         = Some ("body -> conversation_history -> " ++ pretty i ++ " -> role")).
Proof.
  split; [apply build_messages_converted |].
  intros h i e s Hh Hi Hr Hbad.
  destruct (validate_history_rejects ["body"; "conversation_history"] h 0 i e s
              Hi Hr Hbad) as (es' & Hv & Hin).
  simpl in Hin.
  unfold Models.validate_chat_request. rewrite Hh, Hv.
  edestruct (both_errors ChatRequest.mk
               (Models.validate_message ["body"; "message"]
                  (RawChatRequest.message body))
               (inl es' : list ValidationError.t + option (list ConversationMessage.t)))
    as (es & -> & Hes).
  { right. exact Hin. }
  eexists es, _. split; [reflexivity |]. split; [exact Hes |].
  split; [reflexivity |].
  unfold Middleware.validation_exception_handler.
  eexists _, _. split; [reflexivity |].
  split; [apply list_elem_of_fmap_2; exact Hes |].
  unfold Middleware.format_error. rewrite lookup_insert_eq. reflexivity.
Qed.

Lemma history_conversion_witness :
  exists es,
    Models.validate_chat_request
      (RawChatRequest.mk (Some (AStr "Hi"))
         (Some [<["role" := AStr "bogus"]> (<["content" := AStr "x"]> ∅)]))
    = inl es /\
    exists item,
      item ∈ (map Middleware.format_error es) /\
      item !! "field" = Some "body -> conversation_history -> 0 -> role".
Proof.
  destruct (proj2 (history_conversion None "Hi" (ChatRequest.mk "Hi" None)
                     (RawChatRequest.mk (Some (AStr "Hi"))
                        (Some [<["role" := AStr "bogus"]>
                               (<["content" := AStr "x"]> ∅)])))
              [<["role" := AStr "bogus"]> (<["content" := AStr "x"]> ∅)]
              0%nat (<["role" := AStr "bogus"]> (<["content" := AStr "x"]> ∅))
              "bogus" eq_refl eq_refl)
    as (es & err & Hv & _ & _ & items & item & Hh & Hin & Hf).
  - vm_compute; reflexivity.
  - repeat split; discriminate.
  - exists es. split; [exact Hv |].
    exists item. injection Hh as <-. split; [exact Hin | exact Hf].
Defined.

(** ** The history returned by [POST /chat] *)

Lemma collect_visible messages acc assistant_message :
  fst (Routes.collect messages acc assistant_message)
  = (acc ++ flat_map visible messages)%list.
Proof.
  revert acc assistant_message.
  induction messages as [| m rest IH]; intros acc am; simpl.
  - now rewrite app_nil_r.
  - destruct m; simpl; repeat case_decide; try discriminate; try congruence;
      rewrite IH, <- ?app_assoc; reflexivity.
Qed.

Lemma visible_roles messages :
  Forall (fun e => ConversationMessage.role e = USER \/
                   ConversationMessage.role e = ASSISTANT)
         (flat_map visible messages).
Proof.
  induction messages as [| m rest IH]; simpl.
  - constructor.
  - destruct m; simpl; try assumption; constructor; auto.
Qed.

(** C9 as stated fails for the tool-call messages: the AIMessage by which
    the model requests a tool is returned as an assistant entry (here with
    an empty content), so a run with one tool call returns three entries
    where two are specified; only the tool-result message is left out. *)
Lemma tool_call_message_is_returned :
  exists body,
    fst (Routes.chat Demo.all_up
           (ChatRequest.mk "How many active customers do we have?" None)
           (fresh_globals Demo.all_up))
    = Returns body /\
    ChatResponse.conversation_history body
    = [ ConversationMessage.mk USER "How many active customers do we have?";
        ConversationMessage.mk ASSISTANT "";
        ConversationMessage.mk ASSISTANT "There are 2 business clients." ] /\
    flat_map visible_as_specified Demo.one_tool_run
    = [ ConversationMessage.mk USER "How many active customers do we have?";
        ConversationMessage.mk ASSISTANT "There are 2 business clients." ].
Proof.
  eexists. split; [vm_compute; reflexivity |].
  split; vm_compute; reflexivity.
Qed.

(** C9, as the code has it: the conversation_history of a [POST /chat]
    response has one entry per HumanMessage (role 'user') and per
    AIMessage (role 'assistant', the AIMessages that carry tool calls
    included) of the messages the agent returned, in order and with the
    content unchanged; SystemMessages and ToolMessages are left out, so
    every entry has role 'user' or 'assistant'. *)
Theorem chat_history_is_user_and_assistant (W : World) (request : ChatRequest.t)
    (g g1 : Globals) (body : ChatResponse.t) :
  Routes.chat W request g = (Returns body, g1) ->
  exists result,
    Agent.invoke W (ChatRequest.message request) (Routes.history_dicts request) g
    = (Returns result, g1) /\
    ChatResponse.conversation_history body
    = flat_map visible (default [] (result !! "messages")) /\
    Forall (fun e => ConversationMessage.role e = USER \/
                     ConversationMessage.role e = ASSISTANT)
           (ChatResponse.conversation_history body).
Proof.
  unfold Routes.chat, Py.try_except.
  unfold Py.bind at 1.
  destruct (Agent.invoke W _ _ g) as [[result | e] g'] eqn:Hinv.
  - pose proof (collect_visible (default [] (result !! "messages")) [] "") as Hc.
    destruct (Routes.collect _ _ _) as [history am]. simpl in Hc.
    py_unfold. intros [= <- <-].
    exists result. split; [reflexivity |]. simpl.
    split; [exact Hc |]. rewrite Hc. apply visible_roles.
  - unfold Py.raise. discriminate.
Qed.

Lemma chat_history_is_user_and_assistant_witness :
  exists body g1,
    Routes.chat Demo.all_up
      (ChatRequest.mk "How many active customers do we have?" None)
      (fresh_globals Demo.all_up)
    = (Returns body, g1) /\
    Forall (fun e => ConversationMessage.role e = USER \/
                     ConversationMessage.role e = ASSISTANT)
           (ChatResponse.conversation_history body).
Proof.
  eexists _, _. split; [vm_compute; reflexivity |].
  edestruct (chat_history_is_user_and_assistant Demo.all_up
               (ChatRequest.mk "How many active customers do we have?" None)
               (fresh_globals Demo.all_up)) as (result & _ & _ & Hf).
  - vm_compute; reflexivity.
  - exact Hf.
Defined.

(** * Further properties *)

(** ** The vector-store service *)

(** X1: once a vector store exists, [initialize()] and [load_from_disk()]
    return [True] without doing anything, and [get_retriever_tool()]
    returns the retriever tool as it is; so a service whose index was built
    but whose retriever tool was not (the steps after the index raised)
    reports success and never becomes ready. *)
Theorem faiss_once_indexed (W : World) (g : Globals) (v : list string) :
  vectorstore (faiss_service g) = Some v ->
  FAISS.initialize W g = (Returns true, g) /\
  FAISS.load_from_disk W g = (Returns true, g) /\
  FAISS.get_retriever_tool W g = (Returns (retriever_tool (faiss_service g)), g) /\
  (retriever_tool (faiss_service g) = None ->
   FAISS.is_ready g = (Returns false, g) /\
   Dependencies.get_faiss_service W g = (Returns tt, g)).
Proof.
  intros Hv.
  assert (Hi : FAISS.initialize W g = (Returns true, g)).
  { unfold FAISS.initialize. py_unfold. now rewrite Hv. }
  assert (Hl : FAISS.load_from_disk W g = (Returns true, g)).
  { unfold FAISS.load_from_disk. py_unfold. now rewrite Hv. }
  split; [exact Hi |]. split; [exact Hl |]. split.
  - unfold FAISS.get_retriever_tool. py_unfold.
    destruct (retriever_tool (faiss_service g)) eqn:Hrt.
    + rewrite Hrt. reflexivity.
    + destruct (faiss_cache_enabled W).
      * rewrite Hl. cbn. rewrite Hrt. reflexivity.
      * rewrite Hi. cbn. rewrite Hrt. reflexivity.
  - intros Hrt. split.
    + unfold FAISS.is_ready. py_unfold. rewrite Hrt. reflexivity.
    + unfold Dependencies.get_faiss_service, FAISS.is_ready. py_unfold.
      rewrite Hrt. with_strategy opaque [FAISS.initialize] cbn.
      rewrite Hi. reflexivity.
Qed.

Lemma faiss_once_indexed_witness :
  fst (FAISS.initialize Demo2.unsaved_index (fresh_globals Demo2.unsaved_index))
  = Returns false /\
  FAISS.initialize Demo2.unsaved_index
    (snd (FAISS.initialize Demo2.unsaved_index (fresh_globals Demo2.unsaved_index)))
  = (Returns true,
     snd (FAISS.initialize Demo2.unsaved_index (fresh_globals Demo2.unsaved_index))) /\
  retriever_tool
    (faiss_service
       (snd (FAISS.initialize Demo2.unsaved_index (fresh_globals Demo2.unsaved_index))))
  = None.
Proof.
  split; [vm_compute; reflexivity |].
  split; [| vm_compute; reflexivity].
  refine (proj1 (faiss_once_indexed Demo2.unsaved_index _
                   ["https://docs.smith.langchain.com/"] _)).
  vm_compute; reflexivity.
Defined.

Lemma load_all_nothing W urls acc :
  Forall (fun url => WebBaseLoader_load W url = Returns [] \/
                     exists e, WebBaseLoader_load W url = Raises e) urls ->
  FAISS.load_all W urls acc = acc.
Proof.
  intros H. revert acc. induction H as [| url rest [Hu | [e Hu]] _ IH];
    intros acc; simpl.
  - reflexivity.
  - rewrite Hu, app_nil_r. apply IH.
  - rewrite Hu. apply IH.
Qed.

(** X2: from a service that has no vector store yet, when no document
    can be loaded (no URL is configured, or every configured URL fails to
    load or yields nothing), [initialize()] returns [False] and changes
    nothing: no embedding client, index or tool is created. *)
Theorem faiss_initialize_without_documents (W : World) (g : Globals) :
  vectorstore (faiss_service g) = None ->
  Forall (fun url => WebBaseLoader_load W url = Returns [] \/
                     exists e, WebBaseLoader_load W url = Raises e)
         (faiss_urls_list W) ->
  FAISS.initialize W g = (Returns false, g).
Proof.
  intros Hv Hall. unfold FAISS.initialize. py_unfold. rewrite Hv.
  destruct (faiss_urls_list W) as [| u us] eqn:Hu; [reflexivity |].
  rewrite (load_all_nothing W (u :: us) [] Hall). reflexivity.
Qed.

Lemma faiss_initialize_without_documents_witness :
  length (faiss_urls_list Demo2.unreachable_pages) = 2%nat /\
  FAISS.initialize Demo2.unreachable_pages (fresh_globals Demo2.unreachable_pages)
  = (Returns false, fresh_globals Demo2.unreachable_pages).
Proof.
  split; [reflexivity |].
  apply faiss_initialize_without_documents.
  - reflexivity.
  - constructor; [right; eexists; reflexivity |].
    constructor; [left; reflexivity |].
    constructor.
Defined.

(** X3: from a service without a vector store, [initialize()] returns
    [True] only if it leaves the service ready: the index, the retriever
    and the retriever tool are all set, and nothing outside the service
    was touched. *)
Theorem faiss_initialize_true_means_ready (W : World) (g g1 : Globals) :
  vectorstore (faiss_service g) = None ->
  FAISS.initialize W g = (Returns true, g1) ->
  is_Some (vectorstore (faiss_service g1)) /\
  is_Some (retriever_tool (faiss_service g1)) /\
  retriever (faiss_service g1) = Some tt /\
  FAISS.is_ready g1 = (Returns true, g1) /\
  same_but_faiss g g1.
Proof.
  intros Hv. unfold FAISS.initialize, FAISS.is_ready. py_unfold. rewrite Hv.
  destruct (faiss_urls_list W) as [| u us]; [discriminate |].
  destruct (FAISS.load_all W (u :: us) []) as [| d ds]; [discriminate |].
  destruct (split_documents W (d :: ds)); [| discriminate].
  destruct (OpenAIEmbeddings W); [| discriminate].
  cbn. destruct (FAISS_from_documents W _); [| discriminate].
  cbn. destruct (faiss_cache_enabled W); cbn.
  - destruct (FAISS_save_local W); [| discriminate]. cbn.
    destruct (create_retriever_tool W _ _); [| discriminate]. cbn.
    intros [= <-]. cbn. repeat split; eauto.
  - destruct (create_retriever_tool W _ _); [| discriminate]. cbn.
    intros [= <-]. cbn. repeat split; eauto.
Qed.

Lemma faiss_initialize_true_means_ready_witness :
  FAISS.is_ready (snd (FAISS.initialize Demo.all_up (fresh_globals Demo.all_up)))
  = (Returns true, snd (FAISS.initialize Demo.all_up (fresh_globals Demo.all_up))).
Proof.
  refine (proj1 (proj2 (proj2 (proj2
            (faiss_initialize_true_means_ready Demo.all_up
               (fresh_globals Demo.all_up) _ eq_refl _))))).
  vm_compute; reflexivity.
Defined.

(** X4: a failure of the vector store is contained.  Whatever the loaders,
    the embedding client, the index and the cache do, [get_retriever_tool()]
    and the [get_faiss_service] dependency return without raising; what
    [get_retriever_tool()] returns is the tool the service holds
    afterwards (so [None] exactly when the service is not ready), and the
    agent service and the globals of the tools are left as they were. *)
Theorem retriever_failure_is_contained (W : World) (g : Globals) :
  (exists g1,
     FAISS.get_retriever_tool W g
     = (Returns (retriever_tool (faiss_service g1)), g1) /\
     FAISS.is_ready g1
     = (Returns (bool_decide (is_Some (retriever_tool (faiss_service g1)))), g1) /\
     same_but_faiss g g1) /\
  (exists g2,
     Dependencies.get_faiss_service W g = (Returns tt, g2) /\
     same_but_faiss g g2).
Proof.
  split.
  - destruct (get_retriever_tool_safe W g) as (g1 & H & F).
    exists g1. repeat split; try apply F. exact H.
  - apply get_faiss_service_safe.
Qed.

(** ** The agent service *)

Lemma initialize_failure_not_ready W g g1 :
  agent_executor (agent_service g) = None ->
  Agent.initialize W g = (Returns false, g1) ->
  agent_executor (agent_service g1) = None.
Proof.
  intros Hnone. unfold Agent.initialize.
  unfold Py.bind at 1. unfold Py.gets at 1. rewrite Hnone.
  unfold_tool_sources. py_unfold. simpl.
  destruct (ChatOpenAI_agent W); simpl;
    [| intros [= <-]; exact Hnone].
  destruct (ArxivQueryRun W); simpl; [| intros [= <-]; exact Hnone].
  destruct (WikipediaQueryRun W); simpl; [| intros [= <-]; exact Hnone].
  match goal with
  | |- context [FAISS.get_retriever_tool W ?g0] =>
      destruct (get_retriever_tool_safe W g0) as (g3 & -> & F)
  end.
  simpl. destruct F as (Fa & _). simpl in Fa.
  destruct (retriever_tool (faiss_service g3));
    match goal with
    | |- context [create_react_agent W ?l ?ts] =>
        destruct (create_react_agent W l ts); simpl; [discriminate |]
    end;
    intros [= <-]; simpl; rewrite Fa; simpl; exact Hnone.
Qed.

(** X5: what [initialize()] returns tells whether the service is ready.
    It never raises; it returns [True] exactly when the executor is set
    afterwards, and after a [False] the executor is still unset, so that
    the next call tries again. *)
Theorem initialize_result_is_readiness (W : World) (g : Globals) :
  exists b g1,
    Agent.initialize W g = (Returns b, g1) /\
    Agent.is_ready g1 = (Returns b, g1).
Proof.
  destruct (initialize_never_raises W g) as (b & g1 & Hi).
  exists b, g1. split; [exact Hi |].
  unfold Agent.is_ready, Py.gets. f_equal. f_equal.
  destruct b.
  - apply bool_decide_eq_true_2. eapply initialize_success_ready; eauto.
  - apply bool_decide_eq_false_2. intros [ex Hex].
    destruct (agent_executor (agent_service g)) as [ex0 |] eqn:H0.
    + rewrite (initialize_when_ready W g ex0 H0) in Hi. discriminate.
    + rewrite (initialize_failure_not_ready W g g1 H0 Hi) in Hex. discriminate.
Qed.

(** X6: the agent dependency either hands over a ready service or answers
    503.  [get_agent_service] returns only with the executor set, without
    touching a service that was ready already; otherwise it raises
    HTTPException 503 'Agent service initialization failed', and nothing
    else. *)
Theorem agent_dependency_ready_or_503 (W : World) (g : Globals) :
  exists r g1,
    Dependencies.get_agent_service W g = (r, g1) /\
    match r with
    | Returns _ =>
        Agent.is_ready g1 = (Returns true, g1) /\
        (Agent.is_ready g = (Returns true, g) -> g1 = g)
    | Raises e =>
        e = HTTPException 503 "Agent service initialization failed" /\
        Agent.is_ready g = (Returns false, g) /\
        Agent.is_ready g1 = (Returns false, g1)
    end.
Proof.
  destruct (get_agent_service_cases W g)
    as [(g1 & Ha & Hr & Hwhy) | (g1 & Ha & Hnone & Hi)].
  - exists (Returns tt), g1. split; [exact Ha |]. split.
    + unfold Agent.is_ready, Py.gets. now rewrite bool_decide_eq_true_2.
    + unfold Agent.is_ready, Py.gets. intros [= H].
      apply bool_decide_eq_true in H as [ex Hex].
      unfold Dependencies.get_agent_service, Agent.is_ready in Ha.
      py_unfold. rewrite Hex in Ha. cbn in Ha. congruence.
  - exists (Raises (HTTPException 503 "Agent service initialization failed")), g1.
    split; [exact Ha |]. split; [reflexivity |].
    unfold Agent.is_ready, Py.gets.
    rewrite (initialize_failure_not_ready W g g1 Hnone Hi), Hnone. auto.
Qed.

(** the messages of a converted history *)
Lemma history_messages_shape h m :
  m ∈ Agent.history_messages h ->
  (exists c, m = HumanMessage c) \/ (exists c, m = AIMessage c []).
Proof.
  induction h as [| d rest IH]; simpl.
  - intros H. apply elem_of_nil in H. contradiction.
  - rewrite elem_of_app. intros [H | H]; [| auto].
    repeat case_decide.
    + apply list_elem_of_singleton in H. eauto.
    + apply list_elem_of_singleton in H. eauto.
    + apply elem_of_nil in H. contradiction.
Qed.

(** X7: the message list handed to the model.  Its last message is the
    new user message; a system message can only be the configured one, in
    first place; and whatever the client sends as history, the list holds
    no other system message, no tool message and no assistant message
    carrying tool calls. *)
Theorem build_messages_shape (sm : option string) (message : string)
    (history : option (list (gmap string string))) :
  let ms := Agent.build_messages sm message history in
  last ms = Some (HumanMessage message) /\
  (forall c, SystemMessage c ∈ ms ->
             sm = Some c /\ c <> "" /\ head ms = Some (SystemMessage c)) /\
  (forall c i, ToolMessage c i ∉ ms) /\
  (forall c calls, AIMessage c calls ∈ ms -> calls = []).
Proof.
  cbv zeta. unfold Agent.build_messages.
  set (pre := match sm with Some s => _ | None => _ end).
  set (hist := match history with Some h => _ | None => _ end).
  assert (Hhist : forall m, m ∈ hist ->
            (exists c, m = HumanMessage c) \/ (exists c, m = AIMessage c [])).
  { intros m Hm. subst hist. destruct history as [h |].
    - eapply history_messages_shape; eauto.
    - apply elem_of_nil in Hm. contradiction. }
  assert (Hpre : forall m, m ∈ pre ->
            exists c, m = SystemMessage c /\ sm = Some c /\ c <> "" /\ pre = [m]).
  { intros m Hm. subst pre. destruct sm as [s |].
    - case_decide as Hs.
      + apply elem_of_nil in Hm. contradiction.
      + apply list_elem_of_singleton in Hm. subst m. eauto.
    - apply elem_of_nil in Hm. contradiction. }
  split; [| split; [| split]].
  - rewrite app_assoc. apply last_snoc.
  - intros c Hc. rewrite !elem_of_app in Hc. destruct Hc as [Hc | [Hc | Hc]].
    + destruct (Hpre _ Hc) as (c' & [= <-] & Hsm & Hne & Hp).
      rewrite Hp. auto.
    + destruct (Hhist _ Hc) as [[c' H] | [c' H]]; discriminate.
    + apply list_elem_of_singleton in Hc. discriminate.
  - intros c i Hc. rewrite !elem_of_app in Hc. destruct Hc as [Hc | [Hc | Hc]].
    + destruct (Hpre _ Hc) as (c' & H & _). discriminate.
    + destruct (Hhist _ Hc) as [[c' H] | [c' H]]; discriminate.
    + apply list_elem_of_singleton in Hc. discriminate.
  - intros c calls Hc. rewrite !elem_of_app in Hc.
    destruct Hc as [Hc | [Hc | Hc]].
    + destruct (Hpre _ Hc) as (c' & H & _). discriminate.
    + destruct (Hhist _ Hc) as [[c' H] | [c' H]]; [discriminate |].
      now injection H.
    + apply list_elem_of_singleton in Hc. discriminate.
Qed.

(** X8: [POST /chat] turns every failure into a 500.  The handler raises
    nothing but HTTPException 500 whose detail is 'Error processing chat
    request: ' followed by the text of what [agent.invoke] raised; it
    raises exactly when [agent.invoke] does. *)
Theorem chat_failure_is_500 (W : World) (request : ChatRequest.t) (g : Globals) :
  match Agent.invoke W (ChatRequest.message request) (Routes.history_dicts request) g with
  | (Raises e, g1) =>
      Routes.chat W request g
      = (Raises (HTTPException 500 ("Error processing chat request: " ++ str e)), g1)
  | (Returns _, g1) =>
      exists body, Routes.chat W request g = (Returns body, g1) /\
                   ChatResponse.metadata body
                   = Some (<["response_time_ms" := AInt (response_time_ms W)]>
                          (<["tools_available" :=
                               AInt (Z.of_nat (length (tools (agent_service g1))))]> ∅))
  end.
Proof.
  destruct (Agent.invoke W _ _ g) as [[result | e] g1] eqn:Hinv.
  - unfold Routes.chat. py_unfold. rewrite Hinv.
    destruct (Routes.collect _ _ _) as [history am].
    eexists. split; reflexivity.
  - unfold Routes.chat. py_unfold. rewrite Hinv. reflexivity.
Qed.

(** ** Lazily created globals of the tools *)

(** X9: the CRM manager is created once.  After a call of
    [get_customer_manager()] that returned a manager, every later call
    returns that same manager without constructing another one, whatever
    the constructor would do by then; a call in which the constructor
    raised leaves the global unset, so the next call tries again. *)
Theorem customer_manager_is_cached (W : World) (g : Globals) :
  match CrmTools.get_customer_manager W g with
  | (Returns m, g1) =>
      _customer_manager g1 = Some m /\
      forall W', CrmTools.get_customer_manager W' g1 = (Returns m, g1)
  | (Raises e, g1) =>
      g1 = g /\ _customer_manager g = None /\
      CustomerManager_new W ("sqlite:///" ++ crm_database_full_path W) = Raises e
  end.
Proof.
  unfold CrmTools.get_customer_manager at 1. py_unfold.
  destruct (_customer_manager g) as [m |] eqn:Hm.
  - split; [exact Hm |]. intros W'.
    unfold CrmTools.get_customer_manager. py_unfold. now rewrite Hm.
  - destruct (CustomerManager_new W _) as [m | e] eqn:Hnew; cbn.
    + split; [reflexivity |]. intros W'.
      unfold CrmTools.get_customer_manager. py_unfold. reflexivity.
    + auto.
Qed.


(** ** [GET /tools] *)

Lemma tool_infos_of_tools (ts : list Tool) g :
  ToolsRoute.tool_infos
    (map (fun t => <["name" := tool_name t]>
                   (<["description" := tool_description t]> ∅)) ts) g
  = (Returns (map (fun t => ToolInfo.mk (tool_name t) (tool_description t)) ts), g).
Proof.
  induction ts as [| t rest IH]; simpl.
  - reflexivity.
  - unfold ToolsRoute.item. rewrite lookup_insert_eq.
    rewrite lookup_insert_ne by discriminate. rewrite lookup_insert_eq.
    py_unfold. rewrite IH. reflexivity.
Qed.

(** X11: the [GET /tools] handler never answers 500.  It returns the name
    and the description of every tool the agent service holds afterwards,
    in registration order, with [total] their number; on a service that is
    ready, or already has tools, nothing is initialised or changed. *)
Theorem list_tools_reports_registry (W : World) (g : Globals) :
  exists g1,
    ToolsRoute.list_tools W g
    = (Returns (ToolsResponse.mk
                  (map (fun t => ToolInfo.mk (tool_name t) (tool_description t))
                       (tools (agent_service g1)))
                  (Z.of_nat (length (tools (agent_service g1))))),
       g1) /\
    (tools (agent_service g) <> [] \/ is_Some (agent_executor (agent_service g)) ->
     g1 = g).
Proof.
  assert (Hinfo : exists g1,
            Agent.get_tools_info W g
            = (Returns (map (fun t => <["name" := tool_name t]>
                                      (<["description" := tool_description t]> ∅))
                            (tools (agent_service g1))), g1) /\
            (tools (agent_service g) <> [] \/
             is_Some (agent_executor (agent_service g)) -> g1 = g)).
  { unfold Agent.get_tools_info. py_unfold.
    destruct (tools (agent_service g)) as [| t ts] eqn:Ht.
    - destruct (initialize_never_raises W g) as (b & g1 & Hi).
      rewrite Hi. exists g1. split; [reflexivity |].
      intros [H | [ex Hex]]; [contradiction |].
      rewrite (initialize_when_ready W g ex Hex) in Hi. congruence.
    - exists g. rewrite Ht. split; [reflexivity | auto]. }
  destruct Hinfo as (g1 & Hinfo & Hsame).
  exists g1. split; [| exact Hsame].
  unfold ToolsRoute.list_tools. py_unfold. rewrite Hinfo.
  rewrite tool_infos_of_tools. rewrite length_map. reflexivity.
Qed.

(** ** [GET /health] through its dependencies *)

(** X12: a 200 response of [GET /health] never has the overall status
    'degraded' and never reports the agent as unhealthy: the agent
    dependency lets the handler run only with a ready agent, so the agent
    component is 'healthy', and the overall status is 'healthy' when the
    database check succeeded and 'unhealthy' when it raised. *)
Theorem health_endpoint_never_degraded (W : World) (g : Globals)
    (body : HealthResponse.t) :
  fst (Routes.get_health W g) = Success body ->
  component_status body "agent" = Some HEALTHY /\
  HealthResponse.status body <> DEGRADED /\
  (HealthResponse.status body = HEALTHY <->
   component_status body "database" = Some HEALTHY) /\
  (HealthResponse.status body = UNHEALTHY <->
   component_status body "database" = Some UNHEALTHY).
Proof.
  intros Hb.
  destruct (get_health_cases W g) as [(g1 & _ & Hg) | (g1 & g2 & _ & [ex Hex] & Hg)].
  - rewrite Hg in Hb. discriminate.
  - destruct (CustomerManager_new W _) as [db | e].
    + destruct Hg as (body' & Hh & Hg). rewrite Hg in Hb. injection Hb as <-.
      destruct (health_report W db g2) as (body2 & Hh2 & Hs & Ha & _ & Hd).
      rewrite Hh in Hh2. injection Hh2 as <-.
      rewrite Hex in Hs, Ha.
      unfold component_status in *. rewrite Hd.
      destruct (get_customer_count db); rewrite Hs; cbn;
        repeat split; try assumption; try discriminate; try reflexivity.
    + rewrite Hg in Hb. destruct e; discriminate.
Qed.

Lemma health_endpoint_never_degraded_witness :
  exists body,
    fst (Routes.get_health Demo.no_retriever (fresh_globals Demo.no_retriever))
    = Success body /\
    component_status body "agent" = Some HEALTHY /\
    HealthResponse.status body <> DEGRADED.
Proof.
  eexists. split; [vm_compute; reflexivity |].
  match goal with
  | |- component_status ?b _ = _ /\ _ =>
      destruct (health_endpoint_never_degraded Demo.no_retriever
                  (fresh_globals Demo.no_retriever) b) as (Ha & Hn & _)
  end.
  - vm_compute; reflexivity.
  - split; [exact Ha | exact Hn].
Defined.

(** ** Startup *)

(** X13: the startup of the application depends on the agent only.  It
    completes exactly when [agent_service.initialize()] returned [True],
    and then the agent is ready; otherwise it raises 'Agent service
    initialization failed'.  What the vector store does on the way never
    stops it, and a startup that completed is followed by requests whose
    agent dependency resolves without initialising anything. *)
Theorem startup_needs_the_agent_only (W : World) (g : Globals) :
  exists g0 b g1,
    FAISS.initialize W g = (Returns b, g0) /\
    (exists ok,
       Agent.initialize W g0 = (Returns ok, g1) /\
       Main.startup W g
       = (if ok then Returns tt
          else Raises (Exception "Agent service initialization failed"), g1) /\
       (ok = true ->
        forall W', Dependencies.get_agent_service W' g1 = (Returns tt, g1))).
Proof.
  destruct (faiss_initialize_safe W g) as (b & g0 & Hf & _).
  destruct (initialize_never_raises W g0) as (ok & g1 & Hi).
  exists g0, b, g1. split; [exact Hf |].
  exists ok. split; [exact Hi |]. split.
  - unfold Main.startup. py_unfold. rewrite Hf, Hi. destruct ok; reflexivity.
  - intros -> W'.
    destruct (initialize_success_ready W g0 g1 Hi) as [ex Hex].
    unfold Dependencies.get_agent_service, Agent.is_ready. py_unfold.
    rewrite Hex. reflexivity.
Qed.

(** ** Strings *)

Lemma split_on_no_sep sep a :
  has_char sep a = false -> split_on sep a = [a].
Proof.
  induction a as [| x a IH]; simpl; [reflexivity |].
  destruct (decide (x = sep)); [discriminate |]. intros Ha. now rewrite (IH Ha).
Qed.

Lemma split_on_app sep a rest :
  has_char sep a = false ->
  split_on sep (a ++ String sep rest) = a :: split_on sep rest.
Proof.
  induction a as [| x a IH]; simpl.
  - intros _. destruct (decide (sep = sep)); [reflexivity | contradiction].
  - destruct (decide (x = sep)); [discriminate |]. intros Ha. now rewrite (IH Ha).
Qed.

(** X14: what [parse_sql_query] keeps.  A text without a colon is returned
    stripped; of a text with colons only the part between the first and
    the second colon is returned (stripped): the prefix before the first
    colon is dropped, and so is everything from a second colon on, even
    when it belongs to the query. *)
Theorem parse_sql_query_colons (W : World) (a b rest : string) :
  has_char colon a = false ->
  has_char colon b = false ->
  parse_sql_query W a = py_strip W a /\
  parse_sql_query W (a ++ ":" ++ b) = py_strip W (py_strip W b) /\
  parse_sql_query W (a ++ ":" ++ b ++ ":" ++ rest) = py_strip W (py_strip W b).
Proof.
  intros Ha Hb. unfold parse_sql_query. repeat split.
  - rewrite (split_on_no_sep _ _ Ha). reflexivity.
  - change (a ++ ":" ++ b) with (a ++ String colon b).
    rewrite (split_on_app _ _ _ Ha), (split_on_no_sep _ _ Hb). reflexivity.
  - change (a ++ ":" ++ b ++ ":" ++ rest)
      with (a ++ String colon (b ++ String colon rest)).
    rewrite (split_on_app _ _ _ Ha), (split_on_app _ _ _ Hb).
    simpl. reflexivity.
Qed.

Lemma parse_sql_query_colons_witness :
  parse_sql_query Demo.all_up "SQLQuery:SELECT strftime('%H:%M', InvoiceDate) FROM Invoice"
  = "SELECT strftime('%H".
Proof.
  exact (proj2 (proj2 (parse_sql_query_colons Demo.all_up
                         "SQLQuery" "SELECT strftime('%H"
                         "%M', InvoiceDate) FROM Invoice" eq_refl eq_refl))).
Defined.

Lemma length_take_str n s :
  String.length (take_str n s) = Nat.min n (String.length s).
Proof.
  revert s. induction n as [| n IH]; intros [| c s]; simpl; try reflexivity.
  now rewrite IH.
Qed.

Lemma length_append_str (s t : string) :
  String.length (s ++ t) = (String.length s + String.length t)%nat.
Proof. induction s as [| c s IH]; simpl; [reflexivity | now rewrite IH]. Qed.

Lemma take_str_all n s :
  (String.length s <= n)%nat -> take_str n s = s.
Proof.
  revert s. induction n as [| n IH]; intros [| c s]; simpl; intros H;
    try reflexivity; try lia.
  rewrite IH by lia. reflexivity.
Qed.

Lemma len_slice_to s k :
  len (slice_to s k)
  = if decide (0 <= k) then Z.min k (len s) else Z.max 0 (len s + k).
Proof.
  unfold slice_to, len. case_decide; rewrite length_take_str; lia.
Qed.

(** X15: the length of what [truncate_string] returns.  A text no longer
    than [max_length] comes back unchanged.  A longer text is cut so that,
    with the suffix, it has exactly [max_length] characters, provided the
    suffix itself fits; when the suffix is longer than [max_length], the
    negative slice bound drops characters from the end only, and the
    result is longer than [max_length]. *)
Theorem truncate_string_length (text : string) (max_length : Z) (suffix : string) :
  (len text <= max_length ->
   Helpers.truncate_string text max_length suffix = text) /\
  (max_length < len text -> len suffix <= max_length ->
   len (Helpers.truncate_string text max_length suffix) = max_length /\
   Helpers.truncate_string text max_length suffix
   = take_str (Z.to_nat (max_length - len suffix)) text ++ suffix) /\
  (max_length < len text -> max_length < len suffix ->
   max_length < len (Helpers.truncate_string text max_length suffix) /\
   len (Helpers.truncate_string text max_length suffix)
   = Z.max 0 (len text + max_length - len suffix) + len suffix).
Proof.
  assert (Hcut : max_length < len text ->
            len (Helpers.truncate_string text max_length suffix)
            = len (slice_to text (max_length - len suffix)) + len suffix).
  { intros Hlen. unfold Helpers.truncate_string.
    destruct (decide (len text <= max_length)); [lia |].
    unfold len at 1. rewrite length_append_str, Nat2Z.inj_add. reflexivity. }
  split; [| split].
  - intros Hlen. unfold Helpers.truncate_string.
    destruct (decide (len text <= max_length)); [reflexivity | lia].
  - intros Hlen Hsuf. split.
    + rewrite (Hcut Hlen), len_slice_to.
      destruct (decide (0 <= max_length - len suffix)); unfold len in *; lia.
    + unfold Helpers.truncate_string, slice_to.
      destruct (decide (len text <= max_length)); [lia |].
      destruct (decide (0 <= max_length - len suffix)); [reflexivity | ].
      unfold len in *; lia.
  - intros Hlen Hsuf.
    rewrite (Hcut Hlen), len_slice_to.
    destruct (decide (0 <= max_length - len suffix)); unfold len in *; lia.
Qed.

Lemma truncate_string_length_witness :
  Helpers.truncate_string "How many tracks are there?" 10 "..." = "How man..." /\
  Helpers.truncate_string "abcdefghij" 2 "..." = "abcdefghi...".
Proof.
  split.
  - rewrite (proj2 (proj1 (proj2 (truncate_string_length
                                    "How many tracks are there?" 10 "..."))
                      ltac:(vm_compute; reflexivity)
                      ltac:(vm_compute; discriminate))).
    reflexivity.
  - vm_compute. reflexivity.
Defined.

(** X16: [sanitize_message] keeps to the bound.  For a bound that is not
    negative the result has at most [max_length] characters; it is the
    stripped message when that fits and its first [max_length] characters
    otherwise. *)
Theorem sanitize_message_bound (W : World) (message : string) (max_length : Z) :
  0 <= max_length ->
  len (Helpers.sanitize_message W message max_length) <= max_length /\
  Helpers.sanitize_message W message max_length
  = take_str (Z.to_nat max_length) (py_strip W message) /\
  (len (py_strip W message) <= max_length ->
   Helpers.sanitize_message W message max_length = py_strip W message).
Proof.
  intros Hm. unfold Helpers.sanitize_message.
  assert (Hfit : len (py_strip W message) <= max_length ->
                 take_str (Z.to_nat max_length) (py_strip W message)
                 = py_strip W message).
  { unfold len. intros Hl. apply take_str_all. lia. }
  destruct (decide (max_length < len (py_strip W message))) as [Hc | Hc].
  - rewrite len_slice_to. unfold slice_to.
    destruct (decide (0 <= max_length)); [| lia].
    split; [unfold len in *; lia |]. split; [reflexivity | lia].
  - rewrite Hfit by lia. split; [lia |]. split; [reflexivity | auto].
Qed.

Lemma sanitize_message_bound_witness :
  Helpers.sanitize_message Demo.all_up "How many tracks are there?" 8 = "How many".
Proof.
  rewrite (proj1 (proj2 (sanitize_message_bound Demo.all_up
                           "How many tracks are there?" 8
                           ltac:(vm_compute; discriminate)))).
  reflexivity.
Defined.

(** ** Helpers on conversations *)

Lemma last_ai_snoc l m :
  last_ai (l ++ [m])
  = match m with AIMessage c _ => Some c | _ => last_ai l end.
Proof.
  induction l as [| x l IH]; simpl.
  - destruct m; reflexivity.
  - rewrite IH. destruct m; try reflexivity.
Qed.

Lemma last_ai_loop_rev reversed :
  Helpers.last_ai_loop reversed = default "" (last_ai (rev reversed)).
Proof.
  induction reversed as [| m r IH]; simpl.
  - reflexivity.
  - rewrite last_ai_snoc, IH.
    destruct m; simpl; repeat case_decide; try discriminate; try congruence;
      reflexivity.
Qed.

Lemma extract_last_ai_message_spec messages :
  Helpers.extract_last_ai_message messages = default "" (last_ai messages).
Proof.
  unfold Helpers.extract_last_ai_message.
  now rewrite last_ai_loop_rev, rev_involutive.
Qed.

Lemma collect_last_ai messages acc assistant_message :
  snd (Routes.collect messages acc assistant_message)
  = default assistant_message (last_ai messages).
Proof.
  revert acc assistant_message.
  induction messages as [| m rest IH]; intros acc am; simpl.
  - reflexivity.
  - destruct m; simpl; repeat case_decide; try discriminate; try congruence;
      rewrite IH; destruct (last_ai rest); reflexivity.
Qed.

(** X17: the [message] of a [POST /chat] response is what
    [extract_last_ai_message] finds in the messages the agent returned: the
    content of the last AIMessage, and the empty string when there is
    none. *)
Theorem chat_message_is_last_ai (W : World) (request : ChatRequest.t)
    (g g1 : Globals) (body : ChatResponse.t) :
  Routes.chat W request g = (Returns body, g1) ->
  exists result,
    Agent.invoke W (ChatRequest.message request) (Routes.history_dicts request) g
    = (Returns result, g1) /\
    ChatResponse.message body
    = Helpers.extract_last_ai_message (default [] (result !! "messages")) /\
    (last_ai (default [] (result !! "messages")) = None ->
     ChatResponse.message body = "").
Proof.
  destruct (Agent.invoke W _ _ g) as [[result | e] g'] eqn:Hinv;
    unfold Routes.chat; py_unfold; rewrite Hinv.
  - pose proof (collect_last_ai (default [] (result !! "messages")) [] "") as Hc.
    destruct (Routes.collect _ _ _) as [history am]. simpl in Hc.
    intros [= <- <-]. exists result. split; [reflexivity |]. simpl.
    rewrite extract_last_ai_message_spec. split; [exact Hc |].
    intros Hn. rewrite Hc, Hn. reflexivity.
  - discriminate.
Qed.

Lemma chat_message_is_last_ai_witness :
  exists body g1,
    Routes.chat Demo.all_up
      (ChatRequest.mk "How many active customers do we have?" None)
      (fresh_globals Demo.all_up)
    = (Returns body, g1) /\
    ChatResponse.message body = Helpers.extract_last_ai_message Demo.one_tool_run.
Proof.
  eexists _, _. split; [vm_compute; reflexivity |].
  edestruct (chat_message_is_last_ai Demo.all_up
               (ChatRequest.mk "How many active customers do we have?" None)
               (fresh_globals Demo.all_up)) as (result & _ & _ & _).
  - vm_compute; reflexivity.
  - vm_compute; reflexivity.
Defined.

Lemma build_loop_converted (h : list ConversationMessage.t) acc :
  Helpers.build_loop (flat_map converted h) acc
  = (acc ++ map entry_dict (List.filter not_system h))%list.
Proof.
  revert acc. induction h as [| [r c] rest IH]; intros acc; simpl.
  - now rewrite app_nil_r.
  - destruct r; simpl; repeat case_decide; try discriminate; try congruence;
      rewrite IH, <- ?app_assoc; reflexivity.
Qed.

(** X18: the round trip of a history.  Converting the wire history to
    internal messages as [invoke] does, and back with
    [build_conversation_history], gives the user and assistant entries
    back, in order and unchanged; the entries with role 'system' are
    lost. *)
Theorem history_round_trip (h : list ConversationMessage.t) :
  Helpers.build_conversation_history (Agent.history_messages (map entry_dict h))
  = map entry_dict (List.filter not_system h) /\
  (Forall (fun m => not_system m = true) h ->
   Helpers.build_conversation_history (Agent.history_messages (map entry_dict h))
   = map entry_dict h).
Proof.
  assert (Hrt : Helpers.build_conversation_history
                  (Agent.history_messages (map entry_dict h))
                = map entry_dict (List.filter not_system h)).
  { unfold Helpers.build_conversation_history.
    rewrite history_messages_converted, build_loop_converted. reflexivity. }
  split; [exact Hrt |].
  intros Hall. rewrite Hrt. f_equal. clear Hrt.
  induction Hall as [| m rest Hm _ IH]; simpl; [reflexivity |].
  now rewrite Hm, IH.
Qed.

Lemma history_round_trip_witness :
  Helpers.build_conversation_history
    (Agent.history_messages
       (map entry_dict [ConversationMessage.mk USER "Hello";
                        ConversationMessage.mk ASSISTANT "Hi"]))
  = map entry_dict [ConversationMessage.mk USER "Hello";
                    ConversationMessage.mk ASSISTANT "Hi"].
Proof.
  apply (proj2 (history_round_trip _)).
  repeat (constructor; [reflexivity |]). constructor.
Defined.

Lemma valid_entry_agrees loc (e : gmap string Any) :
  Helpers.valid_entry e = true <-> exists m, Models.validate_entry loc e = inr m.
Proof.
  unfold Helpers.valid_entry, Models.validate_entry, Models.validate_role,
    Models.validate_str, Models.both, MessageRole_of_value.
  destruct (e !! "role") as [[| r | | | |] |];
    destruct (e !! "content") as [[| c | | | |] |];
    repeat case_decide;
    (split; [intros Hv | intros [m Hv]]); try discriminate;
    eauto; try (exfalso; intuition congruence).
Qed.

(** X19: the two validations of a history agree.
    [validate_conversation_history] accepts a history exactly when the
    request model accepts it: every entry has a role among 'user',
    'assistant' and 'system' and a content that is a string; a missing
    history is accepted by both. *)
Theorem validate_conversation_history_agrees (history : list (gmap string Any)) :
  Helpers.validate_conversation_history None = true /\
  (Helpers.validate_conversation_history (Some history) = true <->
   exists parsed,
     Models.validate_history ["body"; "conversation_history"] 0 history = inr parsed).
Proof.
  split; [reflexivity |]. simpl.
  generalize 0%nat. generalize ["body"; "conversation_history"].
  intros loc.
  induction history as [| e rest IH]; intros k; simpl.
  - split; eauto.
  - pose proof (valid_entry_agrees (loc ++ [pretty k]) e) as He.
    specialize (IH (S k)).
    destruct (Helpers.valid_entry e).
    + destruct (proj1 He eq_refl) as [m ->].
      rewrite IH. unfold Models.both.
      destruct (Models.validate_history loc (S k) rest) as [es | parsed].
      * split; [intros [l Hl]; discriminate | intros [l Hl]; discriminate].
      * split; eauto.
    + split; [discriminate |]. intros [l Hl].
      unfold Models.both in Hl.
      destruct (Models.validate_entry _ e) as [es | m].
      * destruct (Models.validate_history loc (S k) rest); discriminate.
      * assert (false = true) by (apply He; eauto). discriminate.
Qed.

(** ** Settings *)






(** ** Seeding the CRM database *)

Lemma seed_loop_bounds create n max_attempts c a :
  forall c' a',
    InitDatabases.seed_loop create n max_attempts c a = Returns (c', a') ->
    c <= c' /\ a <= a' /\ c' - c <= a' - a /\
    (c <= n -> c' <= n) /\ (a <= max_attempts -> a' <= max_attempts) /\
    (c' < n -> a' < max_attempts -> False).
Proof.
  funelim (InitDatabases.seed_loop create n max_attempts c a); intros c' a' Hl.
  - injection Hl as <- <-. lia.
  - apply H in Hl. lia.
  - apply H in Hl. lia.
  - discriminate.
Qed.

Lemma seed_loop_returns create n max_attempts c a :
  (forall k, a < k <= max_attempts -> exists b, create k = Returns b) ->
  exists c' a', InitDatabases.seed_loop create n max_attempts c a = Returns (c', a').
Proof.
  funelim (InitDatabases.seed_loop create n max_attempts c a); intros Hc.
  - eauto.
  - apply H. intros k Hk. apply Hc. lia.
  - apply H. intros k Hk. apply Hc. lia.
  - destruct (Hc (attempts + 1)) as [b Hb]; [lia |]. congruence.
Qed.

(** X21: the seeding loop ends, and is bounded by its own condition.  When
    none of the first [3 * sample_records] calls of [create_customer]
    raises, the loop is left normally; and whenever it is left normally, at
    most [sample_records] customers were created in at most three times as
    many attempts, and it was left because the requested number was reached
    or because the attempts ran out; in the second case
    [setup_crm_database] still returns [True], with fewer customers than
    requested (none at all when every generated e-mail was taken). *)
Theorem seeding_is_bounded (W : World) (create : Z -> result bool)
    (sample_records : Z) :
  0 <= sample_records ->
  ((forall k, 0 < k <= 3 * sample_records -> exists b, create k = Returns b) ->
   exists created attempts,
     InitDatabases.seed create sample_records = Returns (created, attempts)) /\
  (forall created attempts,
     InitDatabases.seed create sample_records = Returns (created, attempts) ->
     0 <= created <= sample_records /\
     created <= attempts <= 3 * sample_records /\
     (created = sample_records \/ attempts = 3 * sample_records) /\
     (forall manager,
        CustomerManager_new W ("sqlite:///" ++ crm_database_full_path W) = Returns manager ->
        get_customer_count manager = Returns 0 ->
        InitDatabases.setup_crm_database W create sample_records = true)).
Proof.
  intros Hn. split.
  - intros Hc. unfold InitDatabases.seed. cbv zeta.
    apply seed_loop_returns. intros k Hk. apply Hc. lia.
  - intros created attempts Hs.
    pose proof Hs as Hs'. unfold InitDatabases.seed in Hs'. cbv zeta in Hs'.
    apply seed_loop_bounds in Hs'.
    repeat split; try lia.
    intros manager Hm Hc. unfold InitDatabases.setup_crm_database.
    rewrite Hm, Hc, Hs. reflexivity.
Qed.

Lemma seeding_is_bounded_witness :
  InitDatabases.seed (fun _ => Returns false) 25 = Returns (0, 75) /\
  InitDatabases.seed Demo2.every_other 25 = Returns (25, 50) /\
  (exists created attempts,
     InitDatabases.seed Demo2.every_other 25 = Returns (created, attempts)) /\
  InitDatabases.setup_crm_database Demo2.unsaved_index (fun _ => Returns false) 25 = true.
Proof.
  split; [vm_compute; reflexivity |].
  split; [vm_compute; reflexivity |].
  split.
  - refine (proj1 (seeding_is_bounded Demo2.unsaved_index Demo2.every_other 25 _) _).
    + vm_compute; discriminate.
    + intros k _. eexists. reflexivity.
  - refine (proj2 (proj2 (proj2 (proj2 (seeding_is_bounded Demo2.unsaved_index
                                   (fun _ => Returns false) 25 _) 0 75 _)))
                  (Demo.manager (Returns 0)) eq_refl eq_refl).
    + vm_compute; discriminate.
    + vm_compute; reflexivity.
Defined.

(** ** NULL columns in the CRM tools *)

Lemma listing_first_null W customers : forall i acc g e,
  first_null_column customers = Some e ->
  CrmTools.listing W i customers acc g = (Raises e, g).
Proof.
  induction customers as [| c rest IH]; intros i acc g e Hbad.
  - discriminate.
  - simpl in *. unfold CrmTools.entry, CrmTools.credit_text, CrmTools.status_text.
    py_unfold.
    destruct (credit c) as [x |] eqn:Hc; [| congruence].
    destruct (active_status c) as [s |] eqn:Hs; [| congruence].
    apply IH. exact Hbad.
Qed.

(** X22: a NULL column makes a CRM tool answer with its error text,
    whether the manager exists already or is created by the call.  When the
    customer found has no credit or no status, [get_business_client_by_id]
    returns 'Error retrieving business client: ' followed by the message
    of the exception instead of the details; and when a customer among
    those found by [search_business_clients], or listed by
    [get_active_business_clients], has a NULL column, the tool returns its
    error prefix followed by the message raised for the first such
    customer: a TypeError when the credit is NULL, an AttributeError when
    only the status is.  That is the whole text: none of the customers is
    listed. *)
Theorem null_column_is_an_error_text (W : World) (g g1 : Globals)
    (m : CustomerManager) :
  CrmTools.get_customer_manager W g = (Returns m, g1) ->
  (forall client_id c e,
     get_customer m client_id = Returns (Some c) ->
     first_null_column [c] = Some e ->
     CrmTools.get_business_client_by_id_tool W client_id g
     = (Returns ("Error retrieving business client: " ++ str e), g1)) /\
  (forall search_term customers e,
     search_customers m search_term = Returns customers ->
     first_null_column customers = Some e ->
     CrmTools.search_business_clients_tool W search_term g
     = (Returns ("Error searching business clients: " ++ str e), g1)) /\
  (forall customers e,
     get_active_customers m = Returns customers ->
     first_null_column customers = Some e ->
     CrmTools.get_active_business_clients_tool W g
     = (Returns ("Error retrieving active business clients: " ++ str e), g1)).
Proof.
  intros Hm. split; [| split].
  - intros client_id c e Hget Hbad.
    unfold CrmTools.get_business_client_by_id_tool.
    unfold Py.try_except, Py.bind at 1. rewrite Hm.
    unfold CrmTools.details, CrmTools.credit_text, CrmTools.status_text.
    py_unfold. rewrite Hget. simpl in Hbad.
    destruct (credit c); [destruct (active_status c); [discriminate |] |];
      injection Hbad as <-; reflexivity.
  - intros search_term customers e Hsearch Hbad.
    unfold CrmTools.search_business_clients_tool.
    unfold Py.try_except, Py.bind at 1. rewrite Hm.
    unfold Py.bind at 1. unfold Py.call at 1. rewrite Hsearch.
    destruct customers as [| c rest]; [discriminate |].
    unfold Py.bind at 1.
    rewrite (listing_first_null W _ _ _ _ e Hbad). reflexivity.
  - intros customers e Hsearch Hbad.
    unfold CrmTools.get_active_business_clients_tool.
    unfold Py.try_except, Py.bind at 1. rewrite Hm.
    unfold Py.bind at 1. unfold Py.call at 1. rewrite Hsearch.
    destruct customers as [| c rest]; [discriminate |].
    unfold Py.bind at 1.
    rewrite (listing_first_null W _ _ _ _ e Hbad). reflexivity.
Qed.

Lemma null_column_is_an_error_text_witness :
  CrmTools.search_business_clients_tool Demo2.null_columns "a"
    (fresh_globals Demo2.null_columns)
  = (Returns ("Error searching business clients: " ++
              "'NoneType' object has no attribute 'value'"),
     set_customer_manager Demo2.null_status_manager (fresh_globals Demo2.null_columns)).
Proof.
  refine (proj1 (proj2 (null_column_is_an_error_text Demo2.null_columns
                   (fresh_globals Demo2.null_columns)
                   (set_customer_manager Demo2.null_status_manager
                      (fresh_globals Demo2.null_columns))
                   Demo2.null_status_manager _))
            "a" _ (Exception "'NoneType' object has no attribute 'value'") _ _).
  - reflexivity.
  - reflexivity.
  - reflexivity.
Defined.

(** ** The health handler *)

(** X23: the health handler only reads.  On every state of the services
    and for every behaviour of the database it returns a response, raises
    nothing and changes no singleton; the response carries exactly the
    three components 'agent', 'faiss' and 'database', the version '1.0.0'
    and the timestamp of the clock. *)
Theorem health_handler_reads_only (W : World) (g : Globals)
    (customer_db : CustomerManager) :
  exists body,
    Routes.health W customer_db g = (Returns body, g) /\
    dom (HealthResponse.components body)
    = ({["agent"; "faiss"; "database"]} : gset string) /\
    HealthResponse.version body = Some "1.0.0" /\
    HealthResponse.timestamp body = Some (utcnow_isoformat W).
Proof.
  unfold Routes.health, Agent.is_ready, Agent.get_info, FAISS.is_ready,
    FAISS.get_info, Agent.is_ready.
  py_unfold.
  destruct (agent_executor (agent_service g)) as [ex |] eqn:Hex;
    destruct (retriever_tool (faiss_service g)) as [t |] eqn:Hrt;
    destruct (get_customer_count customer_db) as [n | e] eqn:Hdb;
    cbn; rewrite ?Hex, ?Hrt, ?Hdb; cbn;
    (eexists; split; [reflexivity |]); cbn;
    (split; [| split; reflexivity]);
    rewrite !dom_insert_L, dom_empty_L; set_solver.
Qed.
